(** * bpsense: basis pursuit denoising for SENSE/ESPIRiT reconstruction

    A shallow embedding of the driver [src/bpsense.c] (its [main]) and of the
    library contracts it relies on, followed by the properties of the
    reconstruction pipeline: configuration checks, array shapes, sampling
    pattern, normalisation, choice of the sparsity transform, and the ADMM
    loop. The last part is about the driver as a command: the option loop,
    how a run ends, the optional files, the file store, and the log.

    The driver is modelled as a program in a small state-and-exit monad: the
    state is the store of array files together with the log of what the
    process printed and which library routines it entered; a computation
    either returns or terminates the process ([exit], [abort]), or runs into
    undefined behaviour (a write or a read beyond the end of a buffer), where
    the model stops.

    Floating-point values are kept abstract: the types of scalars and samples
    and the operations on them are the fields of a class, as are the
    numerical kernels of the library. *)

From Stdlib Require Import ZArith Ascii String Lia.
From stdpp Require Import base gmap strings list.

Set Default Proof Using "Type".

(** ** Dimension roles ([misc/mri.h]) *)

Module Mri.

(** Modelled from the spec: the axis roles of [misc/mri.h], a header that is
    not under [src/]: the three spatial axes (read, phase, slice) come first,
    then the coil axis, then the map axis; [main] itself reads the map count
    as [dims[4]] and compares the axes [0..3]. *)
Definition READ_DIM : nat := 0.
Definition PHS1_DIM : nat := 1.
Definition PHS2_DIM : nat := 2.
Definition COIL_DIM : nat := 3.
Definition MAPS_DIM : nat := 4.

(** [MD_BIT(x)] is [1u << x]. *)
Definition MD_BIT (x : nat) : Z := Z.shiftl 1 (Z.of_nat x).

(** [MD_IS_SET(flags, x)] is [flags & MD_BIT(x)], read as a truth value. *)
Definition MD_IS_SET (flags : Z) (x : nat) : bool :=
  negb (Z.land flags (MD_BIT x) =? 0)%Z.

Definition READ_FLAG : Z := MD_BIT READ_DIM.
Definition PHS1_FLAG : Z := MD_BIT PHS1_DIM.
Definition PHS2_FLAG : Z := MD_BIT PHS2_DIM.
Definition COIL_FLAG : Z := MD_BIT COIL_DIM.
Definition MAPS_FLAG : Z := MD_BIT MAPS_DIM.
Definition FFT_FLAGS : Z := Z.lor READ_FLAG (Z.lor PHS1_FLAG PHS2_FLAG).

(** The C operator [~] on an [unsigned int]: the complement within 32
    bits. *)
Definition uint_width : Z := 32.
Definition uint_not (x : Z) : Z := Z.lxor x (Z.ones uint_width).

End Mri.

Export Mri.

(** ** Multi-dimensional arrays ([num/multind.h], [num/flpmath.h]) *)

Module Multind.

(** Modelled from the spec: [md_select_dims] of [num/multind.c], which is not
    under [src/]: a dimension flag set selects the axes that are kept; every
    axis outside the set is reduced to size one. *)
Definition md_select_dims (D : nat) (flags : Z) (idims : list Z) : list Z :=
  imap (fun i d => if MD_IS_SET flags i then d else 1%Z) (take D idims).

(** Modelled from the spec: [md_calc_size] of [num/multind.c], which is not
    under [src/]: the number of elements of an array of the given shape. *)
Definition md_calc_size (D : nat) (dims : list Z) : Z :=
  foldr Z.mul 1%Z (take D dims).

(** Modelled from the spec: [md_clear] of [num/multind.c], which is not under
    [src/]: every element of the array is set to zero. *)
Definition md_clear {A} (zero : A) (D : nat) (dims : list Z) : list A :=
  replicate (Z.to_nat (md_calc_size D dims)) zero.

(** Modelled from the spec: [md_zsmul] of [num/flpmath.c], which is not under
    [src/]: every sample of the array is multiplied by one scalar. *)
Definition md_zsmul {A S} (smul : A -> S -> A)
    (D : nat) (dims : list Z) (iptr : list A) (val : S) : list A :=
  (fun z => smul z val) <$> iptr.



End Multind.

Export Multind.

(** ** Scalars, samples and the numerical library *)

(** The floating-point types of the program and the primitive operations on
    them that [main] uses directly. The array rank [DIMS] of [misc/mri.h] is a
    constant of the build; the flag sets are [unsigned int], so every axis is
    below 32, and the map axis exists. *)
Class Scalars := {
  DIMS : nat;
  DIMS_lower : MAPS_DIM < DIMS;
  DIMS_upper : DIMS <= 32;
  (** [float] and [double] values *)
  float : Type;
  (** [complex float] samples *)
  cfloat : Type;
  (** state of the generator behind the random grid shifts *)
  rng : Type;
  float_of_Z : Z -> float;
  (** [x == 0.] *)
  fl_is_zero : float -> bool;
  (** [x > 0.] *)
  fl_is_pos : float -> bool;
  (** [1. / x] *)
  fl_recip : float -> float;
  c_zero : cfloat;
  c_one : cfloat;
  (** [z == 0] *)
  c_is_zero : cfloat -> bool;
  (** [z * x] for a complex sample and a real scalar *)
  c_smul : cfloat -> float -> cfloat;
  (** [atof] and [atoi] of the C library *)
  atof : string -> float;
  atoi : string -> Z;
  (** the fields of [struct iter_admm_conf] and of [struct bpsense_conf] that
      [main] never names *)
  iter_admm_rest : Type;
  bpsense_rest : Type;
}.

Section Model.

Context `{Sc : Scalars}.

(** A [cfl] array: its shape and its samples in storage order (axis 0
    fastest). *)
Record cfl := Cfl {
  cfl_dims : list Z;
  cfl_data : list cfloat;
}.

(** *** Operators handed to the solver

    The linear operators and proximal operators are built by library
    constructors; the model keeps which constructor was called and with which
    arguments. *)
Inductive linop_s :=
| tv_init (D : nat) (dims : list Z) (flags : Z)
| linop_identity_create (D : nat) (dims : list Z)
| wavelet_create (D : nat) (dims : list Z) (flags : Z) (minsize : list Z)
    (randshift : bool) (usegpu : bool).

Inductive operator_p_s :=
| prox_thresh_create (D : nat) (dims : list Z) (lambda : float) (flags : Z)
    (usegpu : bool)
| prox_wavethresh_create (D : nat) (dims : list Z) (flags : Z)
    (minsize : list Z) (lambda : float) (randshift : bool) (usegpu : bool).

(** *** Configuration ([sense/bprecon.h], [iter/iter.h])

    The fields are those [main] reads or writes; [ic_rest] and [bc_rest]
    stand for the remaining fields of the two structs, which [main] only
    copies from the defaults. [conf.iconf] points to the local [iconf] of
    [main] for the whole run, so the pointed-to struct is kept inside the
    record. *)
Record iter_admm_conf := IterAdmmConf {
  maxiter : Z;
  rho : float;
  ic_rest : iter_admm_rest;
}.

Record bpsense_conf := BpsenseConf {
  iconf : iter_admm_conf;
  rvc : bool;
  lambda : float;
  eps : float;
  l1op_obj : option linop_s;
  bc_rest : bpsense_rest;
}.

Definition set_maxiter (v : Z) (c : bpsense_conf) : bpsense_conf :=
  BpsenseConf (IterAdmmConf v (rho (iconf c)) (ic_rest (iconf c)))
    (rvc c) (lambda c) (eps c) (l1op_obj c) (bc_rest c).
Definition set_rho (v : float) (c : bpsense_conf) : bpsense_conf :=
  BpsenseConf (IterAdmmConf (maxiter (iconf c)) v (ic_rest (iconf c)))
    (rvc c) (lambda c) (eps c) (l1op_obj c) (bc_rest c).
Definition set_iconf (v : iter_admm_conf) (c : bpsense_conf) : bpsense_conf :=
  BpsenseConf v (rvc c) (lambda c) (eps c) (l1op_obj c) (bc_rest c).
Definition set_rvc (v : bool) (c : bpsense_conf) : bpsense_conf :=
  BpsenseConf (iconf c) v (lambda c) (eps c) (l1op_obj c) (bc_rest c).
Definition set_lambda (v : float) (c : bpsense_conf) : bpsense_conf :=
  BpsenseConf (iconf c) (rvc c) v (eps c) (l1op_obj c) (bc_rest c).
Definition set_eps (v : float) (c : bpsense_conf) : bpsense_conf :=
  BpsenseConf (iconf c) (rvc c) (lambda c) v (l1op_obj c) (bc_rest c).
Definition set_l1op_obj (v : option linop_s) (c : bpsense_conf)
    : bpsense_conf :=
  BpsenseConf (iconf c) (rvc c) (lambda c) (eps c) v (bc_rest c).

(** *** What the solver is given

    The arguments of [bpsense_recon] other than the image buffer and the
    truth image. *)
Record recon_problem := ReconProblem {
  rp_conf : bpsense_conf;
  rp_dims : list Z;
  rp_maps : list cfloat;
  rp_dims1 : list Z;
  rp_pattern : list cfloat;
  rp_l1op : linop_s;
  rp_l1prox : operator_p_s;
  rp_ksp_dims : list Z;
  rp_kspace : list cfloat;
}.

(** *** The log of a run *)

(** The arrays [main] holds, as the arguments of the releases name them. *)
Inductive buffer :=
| BufKspace
| BufSens
| BufPattern
| BufImage.

Inductive debug_msg :=
| DbgMaps (n : Z)
| DbgL2 (l : float)
| DbgTotalVariation
| DbgWavelets
| DbgCompareToTruth
| DbgStats (size : Z) (norm : float)
| DbgScaling (s : float)
| DbgError (iter : nat) (err : float)
| DbgTotalTime.

Inductive event :=
| EvUsage (name : string) (to_stderr : bool)
| EvHelp
| EvStderr (msg : string)
| EvDebug (m : debug_msg)
| EvNumInit (gpu : bool)
| EvLoadCfl (name : string)
| EvCreateCfl (name : string) (dims : list Z)
| EvUnmapCfl (dims : list Z) (ptr : buffer)
| EvMdAlloc (dims : list Z)
| EvMdFree (ptr : buffer)
| EvEstimatePattern (dims : list Z) (dim : nat)
| EvEstimateScaling (dims : list Z)
| EvRecon (gpu : bool) (p : recon_problem) (image : list cfloat)
    (image_truth : option (list cfloat))
| EvOperatorPFree (op : operator_p_s)
| EvLinopFree (op : option linop_s).

End Model.

(** ** How a process ends *)

(** [exit(code)], [abort()] (a failed [assert] or a fatal library error), or
    undefined behaviour. *)
Inductive halt :=
| Exited (code : Z)
| Aborted
| Undefined.

(** The process ended with a nonzero status: [exit] with a nonzero code, or
    [abort], which ends the process by [SIGABRT]. *)
Definition exits_nonzero (h : halt) : Prop :=
  match h with
  | Exited code => code <> 0%Z
  | Aborted => True
  | Undefined => False
  end.

(** ** The library under the driver

    Routines and constants of the repository that [main] uses and whose code
    is not under [src/]: the defaults of the two configuration structs, the
    build switch [USE_CUDA], the numerical kernels, and the primitives of the
    ADMM solver. *)
Class Library `{Sc : Scalars} := {
  bpsense_defaults : bpsense_conf;
  iter_admm_defaults : iter_admm_conf;
  USE_CUDA : bool;
  (** [fftmod(N, dims, flags, dst, src)] *)
  fftmod : nat -> list Z -> Z -> list cfloat -> list cfloat;
  (** [estimate_scaling(dims, NULL, data)] *)
  estimate_scaling : list Z -> list cfloat -> float;
  (** [md_znorm(N, dims, ptr)] *)
  md_znorm : nat -> list Z -> list cfloat -> float;
  (** the content of a file that [create_cfl] has just mapped *)
  cfl_fresh : list Z -> list cfloat;
  (** [linop_codomain(op)->dims] *)
  linop_codomain_dims : linop_s -> list Z;
  (** forward action of an analysis operator *)
  linop_forward : linop_s -> list cfloat -> list cfloat;
  (** a proximal operator applied with a step size; the wavelet threshold
      draws its grid shifts from the generator *)
  prox_apply : operator_p_s -> float -> rng -> list cfloat
               -> list cfloat * rng;
  rng_start : rng;
  (** the step size the solver hands to the proximal operator *)
  admm_prox_step : bpsense_conf -> float;
  (** the x-update of ADMM: the inner linear solve under the
      data-consistency constraint, from the current [z], [u] and [x] *)
  admm_x_update : recon_problem -> list cfloat -> list cfloat -> list cfloat
                  -> list cfloat;
  md_zreal : list cfloat -> list cfloat;
  md_zadd : list cfloat -> list cfloat -> list cfloat;
  md_zsub : list cfloat -> list cfloat -> list cfloat;
  (** the comparison metric against a truth image *)
  truth_error : list cfloat -> list cfloat -> float;
  (** what the sample at an offset of a buffer holds when [md_alloc] returns
      it: the memory is not initialised *)
  uninitialised : nat -> cfloat;
  (** Modelled from the spec: the check of the solver on the operators it
      builds from its arguments (the forward operator from maps, pattern and
      k-space shape; the analysis and the proximal operator): whether their
      shapes are compatible. The code that compares them is in
      [sense/bprecon.c] and [linops/], which are not under [src/]. *)
  operators_match : recon_problem -> bool;
  (** Modelled from the spec: how the process ends on a fatal configuration
      error raised by the solver: reported, with a nonzero status. *)
  config_error : halt;
  config_error_nonzero : exits_nonzero config_error;
}.

(** ** The process: file store, log, exit *)

Inductive result (A : Type) :=
| Ok (a : A)
| Halt (h : halt).
Arguments Ok {A} a.
Arguments Halt {A} h.

Section Program.

Context `{Lib : Library}.

#[global] Instance cfloat_inhabited : Inhabited cfloat := populate c_zero.

(** The store of [cfl] files by name, and the log of the run with the most
    recent entry first. *)
Record world := World {
  w_files : gmap string cfl;
  w_log : list event;
}.

Definition prog (A : Type) : Type := world -> result A * world.

#[global] Instance prog_ret : MRet prog := fun A a w => (Ok a, w).

#[global] Instance prog_bind : MBind prog := fun A B f m w =>
  match m w with
  | (Ok a, w') => f a w'
  | (Halt h, w') => (Halt h, w')
  end.

Definition emit (e : event) : prog unit :=
  fun w => (Ok tt, World (w_files w) (e :: w_log w)).

Definition emit_all (es : list event) : prog unit :=
  fun w => (Ok tt, World (w_files w) (es ++ w_log w)).

Definition c_exit {A} (code : Z) : prog A :=
  fun w => (Halt (Exited code), w).

Definition c_abort {A} : prog A :=
  fun w => (Halt Aborted, w).

(** The process ends in the way [h]. *)
Definition c_end {A} (h : halt) : prog A :=
  fun w => (Halt h, w).

(** [assert(e)] with assertions enabled (the source does not define
    [NDEBUG]): a false [e] prints the failed expression and aborts. *)
Definition c_assert (e : bool) (text : string) : prog unit :=
  if e then mret tt else emit (EvStderr text) ;; c_abort.

Definition fprintf_stderr (msg : string) : prog unit := emit (EvStderr msg).

Definition debug_printf (m : debug_msg) : prog unit := emit (EvDebug m).

Definition when (b : bool) (m : prog unit) : prog unit :=
  if b then m else mret tt.

(** *** Buffers *)

(** Modelled from the spec: [md_alloc] of [num/multind.c], which is not under
    [src/]: a buffer for an array of the given shape; its content is not
    initialised. *)
Definition md_alloc (D : nat) (dims : list Z) : list cfloat :=
  uninitialised <$> seq 0 (Z.to_nat (md_calc_size D dims)).

(** A routine writes [data] into a buffer, from its start: the samples
    behind stay as they were; writing beyond the end of the buffer is
    undefined behaviour. *)
Definition c_write_into {A} (buf data : list A) : prog (list A) :=
  if decide (length data <= length buf)
  then mret (data ++ drop (length data) buf)
  else c_end Undefined.

(** A routine reads the first [n] samples of a buffer: reading beyond its
    end is undefined behaviour. *)
Definition c_read_from {A} (buf : list A) (n : nat) : prog unit :=
  if decide (n <= length buf) then mret tt
  else c_end Undefined.

(** *** Array files ([misc/mmio.h]) *)

(** Modelled from the spec: [load_cfl] of [misc/mmio.c], which is not under
    [src/]: the named array is loaded with its shape; its rank must equal the
    rank asked for; a file that cannot be mapped is a fatal resource error,
    reported before the process stops. The caller gets a private copy: writing
    to it does not change the file. *)
Definition load_cfl (name : string) (D : nat) : prog cfl :=
  fun w =>
    match w_files w !! name with
    | Some a =>
        if decide (length (cfl_dims a) = D)
        then (Ok a, World (w_files w) (EvLoadCfl name :: w_log w))
        else (Halt Aborted,
              World (w_files w) (EvStderr "cannot load array" :: w_log w))
    | None =>
        (Halt Aborted,
         World (w_files w) (EvStderr "cannot load array" :: w_log w))
    end.

(** Modelled from the spec: [create_cfl] of [misc/mmio.c], which is not under
    [src/]: a new array file of the given shape is created under the name,
    replacing what was there, and mapped; the buffer returned is the file. *)
Definition create_cfl (name : string) (D : nat) (dims : list Z) : prog unit :=
  fun w =>
    (Ok tt, World (<[name := Cfl (take D dims) (cfl_fresh (take D dims))]>
                     (w_files w))
                  (EvCreateCfl name (take D dims) :: w_log w)).

(** A write through the mapping of a created file: the samples of the file
    are replaced, its shape stays. *)
Definition write_mapped (name : string) (data : list cfloat) : prog unit :=
  fun w =>
    (Ok tt, World (alter (fun a => Cfl (cfl_dims a) data) name (w_files w))
                  (w_log w)).

(** *** Sampling pattern ([sense/optcom.h]) *)

(** Modelled from the spec: [estimate_pattern] of [sense/optcom.c], which is
    not under [src/]: the result has the shape of the k-space with the axis
    [dim] collapsed; an element is 1 if the k-space is nonzero at that location
    for some index along [dim], and 0 otherwise. With axis 0 fastest, the
    location [j] of the result splits into the part below the axis
    ([j mod inner]) and the part above it ([j / inner]). *)
Definition estimate_pattern (D : nat) (dims : list Z) (dim : nat)
    (kspace_data : list cfloat) : list cfloat :=
  let inner := Z.to_nat (md_calc_size dim dims) in
  let n := Z.to_nat (dims !!! dim) in
  let outer := Z.to_nat (md_calc_size (D - S dim) (drop (S dim) dims)) in
  (fun j =>
     if existsb
          (fun c => negb (c_is_zero
             (kspace_data !!! (j mod inner + inner * (c + n * (j / inner))))))
          (seq 0 n)
     then c_one else c_zero)
    <$> seq 0 (inner * outer).

(** *** The solver ([sense/bprecon.h]) *)

Record admm_state := AdmmState {
  ax : list cfloat;
  az : list cfloat;
  au : list cfloat;
  ag : rng;
}.

(** Modelled from the spec: one ADMM iteration of the solver in
    [sense/bprecon.c] and [iter/], which are not under [src/]: the x-update
    (projected onto real images under the real-value constraint), the z-update
    [z <- prox(T x + u)], and the dual update [u <- u + T x - z]. *)
Definition admm_step (p : recon_problem) (s : admm_state) : admm_state :=
  let x1 := admm_x_update p (az s) (au s) (ax s) in
  let x2 := if rvc (rp_conf p) then md_zreal x1 else x1 in
  let Tx := linop_forward (rp_l1op p) x2 in
  let zg := prox_apply (rp_l1prox p) (admm_prox_step (rp_conf p)) (ag s)
              (md_zadd Tx (au s)) in
  AdmmState x2 zg.1 (md_zadd (au s) (md_zsub Tx zg.1)) zg.2.

(** Modelled from the spec: the diagnostic of the solver when a truth image is
    supplied: a comparison metric, printed once per iteration. *)
Definition admm_report (image_truth : option (list cfloat)) (k : nat)
    (s : admm_state) : list event :=
  match image_truth with
  | Some t => [EvDebug (DbgError k (truth_error t (ax s)))]
  | None => []
  end.

(** Modelled from the spec: the loop of the solver: the iteration is repeated
    [n] times from the state [s]; [k] counts the iterations done. The log is
    returned with the most recent entry first. *)
Fixpoint admm_loop (p : recon_problem) (image_truth : option (list cfloat))
    (k n : nat) (s : admm_state) : admm_state * list event :=
  match n with
  | O => (s, [])
  | S n' =>
      let s' := admm_step p s in
      let r := admm_loop p image_truth (S k) n' s' in
      (r.1, r.2 ++ admm_report image_truth k s')
  end.

(** Modelled from the spec: the iteration of [bpsense_recon] of
    [sense/bprecon.c], which is not under [src/]: the state starts at [x] =
    the image buffer as passed in, [z = T x], [u = 0]; the loop runs for the
    iteration budget; the result is the final [x], with the reports of the
    loop. *)
Definition admm_solve (p : recon_problem) (image : list cfloat)
    (image_truth : option (list cfloat)) : list cfloat * list event :=
  let z0 := linop_forward (rp_l1op p) image in
  let s0 := AdmmState image z0 (replicate (length z0) c_zero) rng_start in
  let r := admm_loop p image_truth 0
             (Z.to_nat (maxiter (iconf (rp_conf p)))) s0 in
  (ax r.1, r.2).

(** Modelled from the spec: [bpsense_recon] of [sense/bprecon.c], which is not
    under [src/]: a dimension mismatch between the operators is a fatal
    configuration error, raised before the loop starts: it is reported and
    the process ends with a nonzero status, the image buffer untouched;
    otherwise the iteration runs and the image buffer is overwritten with
    its result, which is returned here. The spec does not give the text of
    the report; the entry of the log stands for it. *)
Definition bpsense_recon (p : recon_problem) (image : list cfloat)
    (image_truth : option (list cfloat)) : prog (list cfloat) :=
  if operators_match p
  then emit_all (admm_solve p image image_truth).2 ;;
       mret (admm_solve p image image_truth).1
  else fprintf_stderr "operator dimensions do not match" ;;
       c_end config_error.

(** Modelled from the spec: [bpsense_recon_gpu], the accelerator backend of
    the same solver contract. *)
Definition bpsense_recon_gpu := bpsense_recon.

(** ** The driver: [main] of [src/bpsense.c] *)

(** The command line as [getopt] delivers it: the program name, the options in
    order (the character [getopt] returns, and [optarg]), and the remaining
    arguments [argv[optind..]]. *)
Record cmdline := Cmdline {
  argv0 : string;
  cl_opts : list (ascii * string);
  cl_args : list string;
}.

(** The local variables of [main] that option parsing sets. *)
Record options := Options {
  o_conf : bpsense_conf;
  o_usegpu : bool;
  o_psf : option string;
  o_image_truth_fname : string;
  o_im_truth : bool;
  o_use_tvnorm : bool;
}.

Definition with_conf (f : bpsense_conf -> bpsense_conf) (o : options)
    : options :=
  Options (f (o_conf o)) (o_usegpu o) (o_psf o) (o_image_truth_fname o)
    (o_im_truth o) (o_use_tvnorm o).

Definition usage (name : string) (to_stderr : bool) : prog unit :=
  emit (EvUsage name to_stderr).

Definition help : prog unit := emit EvHelp.

(** Lines 69-80: the configuration starts from the defaults, with [rho] set
    to 10. *)
Definition initial_options : options :=
  Options (set_rho (float_of_Z 10) (set_iconf iter_admm_defaults bpsense_defaults))
    false None EmptyString false false.

(** Lines 86-132: the [switch] on the option character. The truth file name
    is copied into a buffer of 100 bytes. *)
Definition option_case (name : string) (c : ascii) (optarg : string)
    (o : options) : prog options :=
  if Ascii.eqb c "F" then
    if decide (String.length optarg < 100)
    then mret (Options (o_conf o) (o_usegpu o) (o_psf o) optarg true
                 (o_use_tvnorm o))
    else fun w => (Halt Undefined, w)
  else if Ascii.eqb c "r" then mret (with_conf (set_lambda (atof optarg)) o)
  else if Ascii.eqb c "e" then mret (with_conf (set_eps (atof optarg)) o)
  else if Ascii.eqb c "i" then mret (with_conf (set_maxiter (atoi optarg)) o)
  else if Ascii.eqb c "h" then usage name false ;; help ;; c_exit 0
  else if Ascii.eqb c "c" then mret (with_conf (set_rvc true) o)
  else if Ascii.eqb c "u" then mret (with_conf (set_rho (atof optarg)) o)
  else if Ascii.eqb c "g" then
    mret (Options (o_conf o) true (o_psf o) (o_image_truth_fname o)
            (o_im_truth o) (o_use_tvnorm o))
  else if Ascii.eqb c "p" then
    mret (Options (o_conf o) (o_usegpu o) (Some optarg)
            (o_image_truth_fname o) (o_im_truth o) (o_use_tvnorm o))
  else if Ascii.eqb c "t" then
    mret (Options (o_conf o) (o_usegpu o) (o_psf o) (o_image_truth_fname o)
            (o_im_truth o) true)
  else usage name true ;; c_exit 1.

(** Lines 85-133: the [getopt] loop. *)
Fixpoint getopt_loop (name : string) (opts : list (ascii * string))
    (o : options) : prog options :=
  match opts with
  | [] => mret o
  | (c, optarg) :: rest =>
      o' ← option_case name c optarg o; getopt_loop name rest o'
  end.

(** Lines 153-159: the loop over the first four axes. *)
Fixpoint check_dims (axes : list nat) (ksp_dims dims : list Z) : prog unit :=
  match axes with
  | [] => mret tt
  | i :: rest =>
      if negb (ksp_dims !!! i =? dims !!! i)%Z
      then fprintf_stderr "Dimensions of kspace and sensitivities do not match!" ;;
           c_exit 1
      else check_dims rest ksp_dims dims
  end.

(** Lines 187-199: the sampling pattern, with [pat_dims] where it is
    assigned. The buffer for the estimate is allocated with the shape [dims1]
    taken from the sensitivity maps; the estimator is given the shape of the
    k-space and writes one sample for each location of the k-space with the
    coil axis collapsed, from the start of the buffer. When that is more than
    the buffer holds, the estimator writes beyond its end; when it is less,
    the rest of the buffer stays as [md_alloc] left it. *)
Definition init_pattern (psf : option string) (N : nat)
    (dims1 ksp_dims : list Z) (kspace_data : list cfloat)
    : prog (option (list Z) * list cfloat) :=
  match psf with
  | Some f =>
      a ← load_cfl f N;
      mret (Some (cfl_dims a), cfl_data a)
  | None =>
      emit (EvMdAlloc dims1) ;;
      emit (EvEstimatePattern ksp_dims COIL_DIM) ;;
      pattern ← c_write_into (md_alloc N dims1)
                  (estimate_pattern N ksp_dims COIL_DIM kspace_data);
      mret (None, pattern)
  end.

(** Lines 220-225: the scaling. *)
Definition apply_scaling (N : nat) (ksp_dims : list Z)
    (kspace_data : list cfloat) : prog (list cfloat) :=
  emit (EvEstimateScaling ksp_dims) ;;
  let scaling := estimate_scaling ksp_dims kspace_data in
  debug_printf (DbgScaling scaling) ;;
  mret (if negb (fl_is_zero scaling)
        then md_zsmul c_smul N ksp_dims kspace_data (fl_recip scaling)
        else kspace_data).

(** The macro [MIN]. *)
Definition MIN (a b : Z) : Z := if (a <? b)%Z then a else b.

(** Lines 231-234. *)
Definition make_minsize (img_dims : list Z) : list Z :=
  <[2 := MIN (img_dims !!! 2) 16]>
    (<[1 := MIN (img_dims !!! 1) 16]>
       (<[0 := MIN (img_dims !!! 0) 16]> (replicate DIMS 1%Z))).

(** Lines 236-249: the analysis operator, the proximal operator, and the
    configuration with [l1op_obj] recorded. *)
Definition create_l1 (use_tvnorm usegpu : bool) (img_dims minsize : list Z)
    (conf : bpsense_conf) : linop_s * operator_p_s * bpsense_conf :=
  if use_tvnorm then
    let l1op := tv_init DIMS img_dims FFT_FLAGS in
    let l1prox := prox_thresh_create (DIMS + 1) (linop_codomain_dims l1op)
                    (float_of_Z 1) 0 usegpu in
    (l1op, l1prox, set_l1op_obj (Some l1op) conf)
  else
    let randshift := true in
    let l1op := linop_identity_create DIMS img_dims in
    let conf' := set_l1op_obj
                   (Some (wavelet_create DIMS img_dims FFT_FLAGS minsize
                            false usegpu)) conf in
    let l1prox := prox_wavethresh_create DIMS img_dims FFT_FLAGS minsize
                    (float_of_Z 1) randshift usegpu in
    (l1op, l1prox, conf').

(** Lines 268-275: the call of the solver; the image buffer is the mapped
    output file. *)
Definition call_recon (usegpu : bool) (output : string) (p : recon_problem)
    (image : list cfloat) (image_truth : option (list cfloat)) : prog unit :=
  if usegpu then
    if USE_CUDA then
      emit (EvRecon true p image image_truth) ;;
      x ← bpsense_recon_gpu p image image_truth;
      write_mapped output x
    else c_assert false "0"
  else
    emit (EvRecon false p image image_truth) ;;
    x ← bpsense_recon p image image_truth;
    write_mapped output x.

(** Lines 164-298: [main] from [num_init] on, for the parsed options [o], the
    output name, and the loaded k-space and sensitivity maps. *)
Definition main_recon (o : options) (output : string) (ksp sens : cfl)
    : prog Empty_set :=
  let N := DIMS in
  let conf := o_conf o in
  let ksp_dims := cfl_dims ksp in
  let dims := cfl_dims sens in
  emit (EvNumInit (o_usegpu o)) ;;
  when (1 <? dims !!! MAPS_DIM)%Z (debug_printf (DbgMaps (dims !!! 4))) ;;
  when (fl_is_pos (lambda conf)) (debug_printf (DbgL2 (lambda conf))) ;;
  debug_printf (if o_use_tvnorm o then DbgTotalVariation else DbgWavelets) ;;
  when (o_im_truth o) (debug_printf DbgCompareToTruth) ;;
  let dims1 := md_select_dims N (uint_not (Z.lor COIL_FLAG MAPS_FLAG)) dims in
  let img_dims := md_select_dims N (uint_not COIL_FLAG) dims in
  (* initialize sampling pattern *)
  pat ← init_pattern (o_psf o) N dims1 ksp_dims (cfl_data ksp);
  let pattern := pat.2 in
  (* print some statistics: md_znorm reads the pattern as an array of the
     shape dims1 *)
  c_read_from pattern (Z.to_nat (md_calc_size N dims1)) ;;
  debug_printf (DbgStats (md_calc_size N dims1) (md_znorm N dims1 pattern)) ;;
  (* fftmod to un-center data *)
  let kspace_data := fftmod N ksp_dims FFT_FLAGS (cfl_data ksp) in
  let sens_maps := fftmod N dims FFT_FLAGS (cfl_data sens) in
  (* apply scaling *)
  kspace_data ← apply_scaling N ksp_dims kspace_data;
  (* create l1 prox operator and transform *)
  let minsize := make_minsize img_dims in
  let l1 := create_l1 (o_use_tvnorm o) (o_usegpu o) img_dims minsize conf in
  let l1op := l1.1.1 in
  let l1prox := l1.1.2 in
  let conf := l1.2 in
  (* create image and load truth image *)
  create_cfl output N img_dims ;;
  let image := md_clear c_zero N img_dims in
  write_mapped output image ;;
  image_truth ← (if o_im_truth o
                 then a ← load_cfl (o_image_truth_fname o) DIMS;
                      mret (Some (cfl_data a))
                 else mret None);
  (* call recon *)
  call_recon (o_usegpu o) output
    (ReconProblem conf dims sens_maps dims1 pattern l1op l1prox ksp_dims
       kspace_data)
    image image_truth ;;
  (* cleanup *)
  match o_psf o with
  | Some _ => emit (EvUnmapCfl (default [] pat.1) BufPattern)
  | None => emit (EvMdFree BufPattern)
  end ;;
  emit (EvOperatorPFree l1prox) ;;
  emit (EvLinopFree (Some l1op)) ;;
  when (negb (o_use_tvnorm o)) (emit (EvLinopFree (l1op_obj conf))) ;;
  emit (EvUnmapCfl dims BufSens) ;;
  emit (EvUnmapCfl ksp_dims BufKspace) ;;
  emit (EvUnmapCfl img_dims BufImage) ;;
  debug_printf DbgTotalTime ;;
  c_exit 0.

(** Lines 150-161: the two arrays are loaded and their shapes checked. *)
Definition load_and_check (kspace_name sens_name : string) : prog (cfl * cfl) :=
  let N := DIMS in
  ksp ← load_cfl kspace_name N;
  sens ← load_cfl sens_name N;
  check_dims (seq 0 4) (cfl_dims ksp) (cfl_dims sens) ;;
  c_assert (1 =? cfl_dims ksp !!! MAPS_DIM)%Z "1 == ksp_dims[MAPS_DIM]" ;;
  mret (ksp, sens).

Definition main_prog (cl : cmdline) : prog Empty_set :=
  o ← getopt_loop (argv0 cl) (cl_opts cl) initial_options;
  match cl_args cl with
  | [kspace_name; sens_name; output] =>
      ks ← load_and_check kspace_name sens_name;
      main_recon o output ks.1 ks.2
  | _ => usage (argv0 cl) true ;; c_exit 1
  end.

(** A run of the program on a command line and a file store: how it ended,
    and the final store and log. *)
Definition finish (r : result Empty_set * world) : halt * world :=
  match r with
  | (Halt h, w) => (h, w)
  | (Ok e, _) => match e with end
  end.

Definition main (cl : cmdline) (files : gmap string cfl) : halt * world :=
  finish (main_prog cl (World files [])).

(** ** Vocabulary of the statements *)

(** The run of [cl] on [files] parses its options to [o], names the k-space
    file [kn], the sensitivity file [sn] and the output, and loads the arrays
    [ksp] and [sens] from the two input files. *)
Definition loads (cl : cmdline) (files : gmap string cfl) (o : options)
    (kn sn output : string) (ksp sens : cfl) : Prop :=
  (getopt_loop (argv0 cl) (cl_opts cl) initial_options (World files [])).1
    = Ok o /\
  cl_args cl = [kn; sn; output] /\
  files !! kn = Some ksp /\ length (cfl_dims ksp) = DIMS /\
  files !! sn = Some sens /\ length (cfl_dims sens) = DIMS.

(** The shapes [main] derives from the shape of the sensitivity maps. *)
Definition dims1_of (sens : cfl) : list Z :=
  md_select_dims DIMS (uint_not (Z.lor COIL_FLAG MAPS_FLAG)) (cfl_dims sens).

Definition img_dims_of (sens : cfl) : list Z :=
  md_select_dims DIMS (uint_not COIL_FLAG) (cfl_dims sens).

(** The k-space as [main] hands it to the solver: un-centred, then scaled. *)
Definition normalised (ksp : cfl) : list cfloat :=
  let k := fftmod DIMS (cfl_dims ksp) FFT_FLAGS (cfl_data ksp) in
  let s := estimate_scaling (cfl_dims ksp) k in
  if negb (fl_is_zero s)
  then md_zsmul c_smul DIMS (cfl_dims ksp) k (fl_recip s)
  else k.

(** The arguments of the solver for a given sampling pattern. *)
Definition the_problem (o : options) (ksp sens : cfl) (pattern : list cfloat)
    : recon_problem :=
  let l1 := create_l1 (o_use_tvnorm o) (o_usegpu o) (img_dims_of sens)
              (make_minsize (img_dims_of sens)) (o_conf o) in
  ReconProblem l1.2 (cfl_dims sens)
    (fftmod DIMS (cfl_dims sens) FFT_FLAGS (cfl_data sens))
    (dims1_of sens) pattern l1.1.1 l1.1.2 (cfl_dims ksp) (normalised ksp).

(** The pattern buffer once the estimator has written into it: the estimate,
    then what [md_alloc] left in the rest of the buffer. *)
Definition estimated_pattern (ksp sens : cfl) : list cfloat :=
  estimate_pattern DIMS (cfl_dims ksp) COIL_DIM (cfl_data ksp)
  ++ drop (length (estimate_pattern DIMS (cfl_dims ksp) COIL_DIM
                     (cfl_data ksp)))
       (md_alloc DIMS (dims1_of sens)).

(** The sampling pattern stays within its buffer: an estimate is not larger
    than the buffer allocated for it from the shape of the maps, and a
    pattern file holds the samples that are read from it as an array of that
    shape. *)
Definition pattern_fits (o : options) (files : gmap string cfl)
    (ksp sens : cfl) : Prop :=
  match o_psf o with
  | Some f =>
      forall a, files !! f = Some a ->
        Z.to_nat (md_calc_size DIMS (dims1_of sens)) <= length (cfl_data a)
  | None =>
      length (estimate_pattern DIMS (cfl_dims ksp) COIL_DIM (cfl_data ksp))
      <= Z.to_nat (md_calc_size DIMS (dims1_of sens))
  end.

(** What an entry of the log of [main_recon] can be, for a run that started
    on the store [files]. *)
Definition event_ok (o : options) (output : string) (ksp sens : cfl)
    (files : gmap string cfl) (e : event) : Prop :=
  match e with
  | EvRecon g p img t =>
      g = o_usegpu o /\
      img = md_clear c_zero DIMS (img_dims_of sens) /\
      (o_im_truth o = false -> t = None) /\
      exists pattern,
        p = the_problem o ksp sens pattern /\
        match o_psf o with
        | Some f => exists a, files !! f = Some a /\ pattern = cfl_data a
        | None =>
            pattern = estimated_pattern ksp sens /\
            length (estimate_pattern DIMS (cfl_dims ksp) COIL_DIM
                      (cfl_data ksp))
            <= length (md_alloc DIMS (dims1_of sens))
        end
  | EvEstimatePattern d dim =>
      o_psf o = None /\ d = cfl_dims ksp /\ dim = COIL_DIM
  | EvMdAlloc d => o_psf o = None /\ d = dims1_of sens
  | EvCreateCfl n d => n = output /\ d = img_dims_of sens
  | EvStderr m =>
      m = "cannot load array" \/ m = "0" \/
      m = "operator dimensions do not match"
  | EvEstimateScaling d => d = cfl_dims ksp
  | EvNumInit g => g = o_usegpu o
  | _ => True
  end.

(** The calls of the solver that a log records, most recent first. *)
Definition recon_call_of (e : event)
    : option (bool * recon_problem * list cfloat * option (list cfloat)) :=
  match e with
  | EvRecon g p img t => Some (g, p, img, t)
  | _ => None
  end.

Definition recon_calls (l : list event)
    : list (bool * recon_problem * list cfloat * option (list cfloat)) :=
  omap recon_call_of l.

(** The iterations at which a log records a comparison with the truth
    image, most recent first. *)
Definition error_reports (l : list event) : list nat :=
  omap (fun e => match e with
                 | EvDebug (DbgError k _) => Some k
                 | _ => None
                 end) l.

(** Whether a log records a call of the solver. *)
Definition calls_solver (l : list event) : bool :=
  existsb (fun e => match e with EvRecon _ _ _ _ => true | _ => false end) l.

(** How many times the log records a scale estimate. *)
Fixpoint scale_estimates (l : list event) : nat :=
  match l with
  | [] => 0
  | EvEstimateScaling _ :: r => S (scale_estimates r)
  | _ :: r => scale_estimates r
  end.

(** Two option records that agree on everything but the truth image. *)
Definition same_but_truth (o1 o2 : options) : Prop :=
  o_conf o1 = o_conf o2 /\ o_usegpu o1 = o_usegpu o2 /\
  o_psf o1 = o_psf o2 /\ o_use_tvnorm o1 = o_use_tvnorm o2.

(** *** Vocabulary of the option loop *)

(** An option whose [case] sets a variable and goes on with the loop: every
    case of the [switch] other than [h], with a truth file name that fits
    the buffer of 100 bytes together with its terminator. *)
Definition sets_variable (ca : ascii * string) : bool :=
  if Ascii.eqb ca.1 "F" then bool_decide (String.length ca.2 < 100)
  else existsb (Ascii.eqb ca.1) ["r"; "e"; "i"; "c"; "u"; "g"; "p"; "t"]%char.

(** The option characters that have a [case] of their own. *)
Definition has_case (c : ascii) : bool :=
  existsb (Ascii.eqb c)
    ["F"; "r"; "e"; "i"; "h"; "c"; "u"; "g"; "p"; "t"]%char.

(** Whether the option [c] occurs, and the argument of its last
    occurrence. *)
Definition given (c : ascii) (opts : list (ascii * string)) : bool :=
  existsb (fun ca => Ascii.eqb ca.1 c) opts.

Fixpoint last_arg (c : ascii) (opts : list (ascii * string)) : option string :=
  match opts with
  | [] => None
  | (c', a) :: rest =>
      match last_arg c rest with
      | Some b => Some b
      | None => if Ascii.eqb c' c then Some a else None
      end
  end.

(** *** Vocabulary of the stages of a run *)

(** The two shapes pass the checks of lines 153-161. *)
Definition shapes_accepted (ksp sens : cfl) : Prop :=
  (forall i, i < 4 -> cfl_dims ksp !!! i = cfl_dims sens !!! i) /\
  cfl_dims ksp !!! MAPS_DIM = 1%Z.

(** [load_cfl] returns for the name: the file is there and has the rank
    [DIMS]. *)
Definition can_load (files : gmap string cfl) (name : string) : Prop :=
  exists a, files !! name = Some a /\ length (cfl_dims a) = DIMS.

(** The entries [main] writes between the shape checks and the sampling
    pattern (lines 164-178). *)
Definition announces (e : event) : bool :=
  match e with
  | EvNumInit _ => true
  | EvDebug (DbgMaps _) | EvDebug (DbgL2 _) | EvDebug DbgTotalVariation
  | EvDebug DbgWavelets | EvDebug DbgCompareToTruth => true
  | _ => false
  end.

(** The entries of a release ([unmap_cfl], [md_free], [operator_p_free],
    [linop_free]) and of a call of the solver. *)
Definition releases (e : event) : bool :=
  match e with
  | EvUnmapCfl _ _ | EvMdFree _ | EvOperatorPFree _ | EvLinopFree _
  | EvRecon _ _ _ _ => true
  | _ => false
  end.

End Program.

(** ** A small instance

    Integer scalars and samples, rank 16, and a library with simple kernels,
    on which the driver can be run. *)
Module Example.

#[local] Open Scope Z_scope.

(** Decimal digits, read until the first other character. *)
Fixpoint parse_decimal (s : string) (acc : Z) : Z :=
  match s with
  | String c rest =>
      let d := Z.of_N (N_of_ascii c) - 48 in
      if (0 <=? d) && (d <=? 9) then parse_decimal rest (10 * acc + d)
      else acc
  | EmptyString => acc
  end.

Definition scalars : Scalars :=
  {| DIMS := 16;
     DIMS_lower := ltac:(unfold MAPS_DIM; repeat constructor);
     DIMS_upper := ltac:(repeat constructor);
     float := Z;
     cfloat := Z;
     rng := nat;
     float_of_Z := fun z => z;
     fl_is_zero := fun x => x =? 0;
     fl_is_pos := fun x => 0 <? x;
     fl_recip := fun x => 1 / x;
     c_zero := 0;
     c_one := 1;
     c_is_zero := fun z => z =? 0;
     c_smul := fun z x => z * x;
     atof := fun s => parse_decimal s 0;
     atoi := fun s => parse_decimal s 0;
     iter_admm_rest := unit;
     bpsense_rest := unit |}.

Definition library : @Library scalars :=
  {| bpsense_defaults :=
       @BpsenseConf scalars (@IterAdmmConf scalars 0 0 tt) false 0 (-1) None tt;
     iter_admm_defaults := @IterAdmmConf scalars 50 1 tt;
     USE_CUDA := false;
     fftmod := fun _ _ _ d => d;
     estimate_scaling := fun _ d => if forallb (Z.eqb 0) d then 0 else 1;
     md_znorm := fun _ _ d => foldr Z.add 0 d;
     cfl_fresh := fun dims => [];
     linop_codomain_dims := fun op =>
       match op with
       | tv_init _ dims _ => dims ++ [3]
       | linop_identity_create _ dims => dims
       | wavelet_create _ dims _ _ _ _ => dims
       end;
     linop_forward := fun _ x => x;
     prox_apply := fun _ _ g v => (v, S g);
     rng_start := O;
     admm_prox_step := fun c => 1;
     admm_x_update := fun p z u x => (fun v => v + 1) <$> x;
     md_zreal := fun x => x;
     md_zadd := fun x y => x;
     md_zsub := fun x y => x;
     truth_error := fun t x => 0;
     uninitialised := fun i => 100 + Z.of_nat i;
     operators_match := fun p =>
       bool_decide (<[MAPS_DIM := 1]> (@rp_dims scalars p)
                    = @rp_ksp_dims scalars p) &&
       bool_decide (@rp_dims1 scalars p
                    = <[COIL_DIM := 1]> (@rp_ksp_dims scalars p));
     config_error := Aborted;
     config_error_nonzero := I |}.

#[local] Existing Instance scalars.
#[local] Existing Instance library.

(** Sample arrays of rank 16: two read and two phase positions, one slice. *)
Definition shape (d0 d1 d2 d3 d4 d5 : Z) : list Z :=
  [d0; d1; d2; d3; d4; d5] ++ replicate 10 1.

(** k-space with two coils, and sensitivity maps with one or two maps. *)
Definition ksp_a : cfl := Cfl (shape 2 2 1 2 1 1) [1; 0; 0; 2; 0; 0; 3; 0].
Definition sens_a : cfl := Cfl (shape 2 2 1 2 1 1) (replicate 8 1).
Definition sens_b : cfl := Cfl (shape 2 2 1 2 2 1) (replicate 16 1).
(** k-space with three coils; k-space with three entries on axis 5; k-space
    with two maps and three entries on axis 5; an all-zero k-space. *)
Definition ksp_c : cfl := Cfl (shape 2 2 1 3 1 1) (replicate 12 1).
Definition ksp_d : cfl := Cfl (shape 2 2 1 2 1 3) (replicate 24 1).
Definition ksp_e : cfl := Cfl (shape 2 2 1 2 2 3) (replicate 48 1).
Definition ksp_z : cfl := Cfl (shape 2 2 1 2 1 1) (replicate 8 0).
(** Sensitivity maps with three entries on axis 5. *)
Definition sens_d : cfl := Cfl (shape 2 2 1 2 1 3) (replicate 24 1).
(** A point-spread function and a truth image. *)
Definition psf_a : cfl := Cfl (shape 2 2 1 1 1 1) [1; 1; 0; 1].
Definition truth_a : cfl := Cfl (shape 2 2 1 1 1 1) [5; 5; 5; 5].

Definition files : gmap string cfl :=
  <["ksp_a" := ksp_a]> (<["ksp_c" := ksp_c]> (<["ksp_d" := ksp_d]>
  (<["ksp_e" := ksp_e]> (<["ksp_z" := ksp_z]> (<["sens_a" := sens_a]>
  (<["sens_b" := sens_b]> (<["sens_d" := sens_d]> (<["psf_a" := psf_a]>
  (<["truth_a" := truth_a]> ∅))))))))).

Definition command (opts : list (ascii * string)) (kn sn : string)
    : cmdline :=
  Cmdline "bpsense" opts [kn; sn; "out"].

(** The options as parsed from a command line that parses. *)
Definition parsed (cl : cmdline) : options :=
  match (getopt_loop (argv0 cl) (cl_opts cl) initial_options
           (World files [])).1 with
  | Ok o => o
  | Halt _ => initial_options
  end.

End Example.

(** * Properties *)

(** ** Running a program step by step *)

Lemma bind_run `{Lib : Library} {A B} (m : prog A) (f : A -> prog B) w :
  (m ≫= f) w = match m w with
               | (Ok a, w1) => f a w1
               | (Halt h, w1) => (Halt h, w1)
               end.
Proof. reflexivity. Qed.

Lemma step_abort `{Lib : Library} {A B} (f : A -> prog B) w :
  (c_abort ≫= f) w = (Halt Aborted, w).
Proof. reflexivity. Qed.

Lemma step_exit `{Lib : Library} {A B} code (f : A -> prog B) w :
  (c_exit code ≫= f) w = (Halt (Exited code), w).
Proof. reflexivity. Qed.

Lemma step_emit `{Lib : Library} {B} e (f : unit -> prog B) w :
  (emit e ≫= f) w = f tt (World (w_files w) (e :: w_log w)).
Proof. reflexivity. Qed.

Lemma step_emit_all `{Lib : Library} {B} es (f : unit -> prog B) w :
  (emit_all es ≫= f) w = f tt (World (w_files w) (es ++ w_log w)).
Proof. reflexivity. Qed.

Lemma step_when `{Lib : Library} {B} b e (f : unit -> prog B) w :
  (when b (emit e) ≫= f) w
  = f tt (World (w_files w) ((if b then [e] else []) ++ w_log w)).
Proof. destruct b, w; reflexivity. Qed.

Lemma step_ret `{Lib : Library} {A B} (a : A) (f : A -> prog B) w :
  (mret a ≫= f) w = f a w.
Proof. reflexivity. Qed.

Lemma step_assoc `{Lib : Library} {A B C}
    (m : prog A) (f : A -> prog B) (g : B -> prog C) w :
  ((m ≫= f) ≫= g) w = (m ≫= (fun a => f a ≫= g)) w.
Proof. rewrite !bind_run. destruct (m w) as [[a|h] w1]; reflexivity. Qed.

Lemma step_load `{Lib : Library} {B} name D (f : cfl -> prog B) w :
  (load_cfl name D ≫= f) w
  = match w_files w !! name with
    | Some a =>
        if decide (length (cfl_dims a) = D)
        then f a (World (w_files w) (EvLoadCfl name :: w_log w))
        else (Halt Aborted,
              World (w_files w) (EvStderr "cannot load array" :: w_log w))
    | None =>
        (Halt Aborted,
         World (w_files w) (EvStderr "cannot load array" :: w_log w))
    end.
Proof.
  rewrite bind_run. unfold load_cfl.
  destruct (w_files w !! name); [case (decide _)|]; reflexivity.
Qed.

Lemma step_create `{Lib : Library} {B} name D dims (f : unit -> prog B) w :
  (create_cfl name D dims ≫= f) w
  = f tt (World (<[name := Cfl (take D dims) (cfl_fresh (take D dims))]>
                   (w_files w))
                (EvCreateCfl name (take D dims) :: w_log w)).
Proof. reflexivity. Qed.

Lemma step_write `{Lib : Library} {B} name data (f : unit -> prog B) w :
  (write_mapped name data ≫= f) w
  = f tt (World (alter (fun a => Cfl (cfl_dims a) data) name (w_files w))
                (w_log w)).
Proof. reflexivity. Qed.

Lemma step_write_into `{Lib : Library} {A B}
    (buf data : list A) (f : list A -> prog B) w :
  (c_write_into buf data ≫= f) w
  = if decide (length data <= length buf)
    then f (data ++ drop (length data) buf) w
    else (Halt Undefined, w).
Proof. unfold c_write_into. rewrite bind_run. by case (decide _). Qed.

Lemma step_read_from `{Lib : Library} {A B}
    (buf : list A) n (f : unit -> prog B) w :
  (c_read_from buf n ≫= f) w
  = if decide (n <= length buf) then f tt w else (Halt Undefined, w).
Proof. unfold c_read_from. rewrite bind_run. by case (decide _). Qed.

Lemma step_recon `{Lib : Library} {B} p img t (f : list cfloat -> prog B) w :
  (bpsense_recon p img t ≫= f) w
  = if operators_match p
    then f (admm_solve p img t).1
           (World (w_files w) ((admm_solve p img t).2 ++ w_log w))
    else (Halt config_error,
          World (w_files w)
            (EvStderr "operator dimensions do not match" :: w_log w)).
Proof.
  unfold bpsense_recon. rewrite bind_run. by destruct (operators_match p).
Qed.

Lemma length_md_alloc `{Lib : Library} D dims :
  length (md_alloc D dims) = Z.to_nat (md_calc_size D dims).
Proof. unfold md_alloc. by rewrite length_fmap, length_seq. Qed.

Lemma length_written {A} (buf data : list A) :
  length data <= length buf ->
  length (data ++ drop (length data) buf) = length buf.
Proof. intros H. rewrite length_app, length_drop. lia. Qed.

Ltac run :=
  cbv [mbind mret prog_bind prog_ret emit emit_all c_exit c_abort c_assert
       fprintf_stderr debug_printf when usage help] in *.

Ltac step :=
  first [ rewrite step_abort | rewrite step_exit | rewrite step_emit
        | rewrite step_emit_all | rewrite step_when | rewrite step_ret
        | rewrite step_assoc | rewrite step_create | rewrite step_write
        | rewrite step_write_into | rewrite step_read_from
        | rewrite step_recon ];
  cbv beta; cbn [w_files w_log fst snd].

Ltac exec :=
  repeat first
    [ step
    | rewrite step_load; cbn [w_files w_log]
    | match goal with
      | |- context [decide (?n <= length (?d ++ drop (length ?d) ?b))] =>
          rewrite (decide_True (P := n <= length (d ++ drop (length d) b)))
            by (rewrite length_written, length_md_alloc by assumption; lia)
      end
    | match goal with
      | |- context [match ?m !! ?k with _ => _ end] =>
          destruct (m !! k) eqn:?
      | |- context [decide (length ?l = ?n)] =>
          destruct (decide (length l = n))
      | |- context [decide (length ?d <= length (md_alloc ?D ?dims))] =>
          destruct (decide (length d <= length (md_alloc D dims)))
      | |- context [decide (?a <= ?b)] =>
          destruct (decide (a <= b))
      | |- context [if operators_match ?p then _ else _] =>
          destruct (operators_match p) eqn:?
      end ].

Lemma finish_snd `{Lib : Library} (r : result Empty_set * world) :
  (finish r).2 = r.2.
Proof. destruct r as [[[]|h] w]; reflexivity. Qed.

(** ** Option parsing and the shape checks *)

Lemma option_case_ok `{Lib : Library} name c a o w o' w' :
  option_case name c a o w = (Ok o', w') -> w' = w.
Proof.
  unfold option_case.
  repeat (case (Ascii.eqb c _)); try case (decide _); run; intros; congruence.
Qed.

Lemma getopt_loop_ok `{Lib : Library} name opts : forall o w o' w',
  getopt_loop name opts o w = (Ok o', w') -> w' = w.
Proof.
  induction opts as [|[c a] rest IH]; intros o w o' w'; cbn [getopt_loop].
  - intros [= _ ->]. done.
  - rewrite bind_run. destruct (option_case name c a o w) as [[o1|h] w1] eqn:E.
    + intros H. apply option_case_ok in E as ->. eauto.
    + discriminate.
Qed.

Lemma check_dims_run `{Lib : Library} axes (ksp_dims dims : list Z) w :
  (Forall (fun i => ksp_dims !!! i = dims !!! i) axes /\
   check_dims axes ksp_dims dims w = (Ok tt, w)) \/
  (Exists (fun i => ksp_dims !!! i <> dims !!! i) axes /\
   check_dims axes ksp_dims dims w
   = (Halt (Exited 1),
      World (w_files w)
        (EvStderr "Dimensions of kspace and sensitivities do not match!"
           :: w_log w))).
Proof.
  induction axes as [|i rest IH]; cbn [check_dims]; run.
  - left. split; [constructor | done].
  - destruct (Z.eqb_spec (ksp_dims !!! i) (dims !!! i)) as [He|Hne];
      cbn [negb].
    + destruct IH as [[Hf Hr]|[Hx Hr]].
      * left. split; [by constructor | done].
      * right. split; [by apply Exists_cons_tl | done].
    + right. split; [by apply Exists_cons_hd | done].
Qed.

Lemma load_cfl_ok `{Lib : Library} name D (a : cfl) w :
  w_files w !! name = Some a -> length (cfl_dims a) = D ->
  load_cfl name D w = (Ok a, World (w_files w) (EvLoadCfl name :: w_log w)).
Proof.
  intros Hf Hl. unfold load_cfl. rewrite Hf. by rewrite decide_True.
Qed.

(** A run that loads its two arrays ends at the shape check, at the
    assertion on the map axis, or goes on with [main_recon]. *)
Lemma main_cases `{Lib : Library} cl files o kn sn output ksp sens :
  loads cl files o kn sn output ksp sens ->
  let w0 := World files [EvLoadCfl sn; EvLoadCfl kn] in
  (Exists (fun i => cfl_dims ksp !!! i <> cfl_dims sens !!! i) (seq 0 4) /\
   main cl files
   = (Exited 1,
      World files
        (EvStderr "Dimensions of kspace and sensitivities do not match!"
           :: w_log w0))) \/
  (Forall (fun i => cfl_dims ksp !!! i = cfl_dims sens !!! i) (seq 0 4) /\
   cfl_dims ksp !!! MAPS_DIM <> 1%Z /\
   main cl files
   = (Aborted, World files (EvStderr "1 == ksp_dims[MAPS_DIM]" :: w_log w0))) \/
  (Forall (fun i => cfl_dims ksp !!! i = cfl_dims sens !!! i) (seq 0 4) /\
   cfl_dims ksp !!! MAPS_DIM = 1%Z /\
   main cl files = finish (main_recon o output ksp sens w0)).
Proof.
  intros (Hp & Ha & Hk & Hkl & Hs & Hsl) w0.
  unfold main, main_prog. rewrite bind_run.
  destruct (getopt_loop _ _ _ _) as [r w1] eqn:E. cbn in Hp. subst r.
  apply getopt_loop_ok in E as ->. rewrite Ha.
  rewrite bind_run. unfold load_and_check.
  rewrite bind_run, (load_cfl_ok _ _ ksp) by done.
  rewrite bind_run, (load_cfl_ok _ _ sens) by done.
  cbn [w_files w_log]. rewrite bind_run.
  destruct (check_dims_run (seq 0 4) (cfl_dims ksp) (cfl_dims sens)
              (World files [EvLoadCfl sn; EvLoadCfl kn])) as [[Hf ->]|[Hx ->]].
  - rewrite bind_run. unfold c_assert.
    destruct (Z.eqb_spec 1 (cfl_dims ksp !!! MAPS_DIM)) as [He|Hne].
    + right. right. done.
    + right. left. split; [done|]. split; [congruence|]. reflexivity.
  - left. done.
Qed.

(** ** The log of the solver and of [main_recon] *)

Lemma admm_loop_events `{Lib : Library} p t n : forall k s e,
  e ∈ (admm_loop p t k n s).2 -> exists i err, e = EvDebug (DbgError i err).
Proof.
  induction n as [|n IH]; intros k s e; cbn [admm_loop fst snd].
  - intros H. by apply elem_of_nil in H.
  - intros [H|H]%elem_of_app; [by eapply IH|].
    unfold admm_report in H. destruct t as [t|].
    + apply list_elem_of_singleton in H. eauto.
    + by apply elem_of_nil in H.
Qed.

Lemma admm_solve_events `{Lib : Library} p img t e :
  e ∈ (admm_solve p img t).2 -> exists i err, e = EvDebug (DbgError i err).
Proof. unfold admm_solve. cbn [snd]. apply admm_loop_events. Qed.

Ltac inv_log H tac :=
  lazymatch type of H with
  | _ ∈ _ :: _ =>
      apply elem_of_cons in H as [H|H]; [subst; tac | inv_log H tac]
  | _ ∈ _ ++ _ =>
      apply elem_of_app in H as [H|H]; [inv_log H tac | inv_log H tac]
  | _ ∈ (if ?b then _ else _) => destruct b; inv_log H tac
  | _ ∈ [] => apply elem_of_nil in H; destruct H
  | _ ∈ (admm_solve _ _ _).2 =>
      apply admm_solve_events in H as (? & ? & ->); tac
  | _ => tac
  end.

Lemma img_dims_take `{Lib : Library} sens :
  take DIMS (img_dims_of sens) = img_dims_of sens.
Proof.
  apply take_ge. unfold img_dims_of, md_select_dims.
  rewrite length_imap, length_take. lia.
Qed.

Ltac start_main_recon sens ksp :=
  unfold main_recon; cbv zeta; unfold debug_printf;
  fold (img_dims_of sens) (dims1_of sens);
  repeat step;
  unfold init_pattern, apply_scaling, call_recon, bpsense_recon_gpu,
    debug_printf, c_assert;
  fold (normalised ksp).

(** [main_recon] run symbolically: a stage that has ended the process is not
    split any further. *)
Ltac run_main_recon o sens ksp :=
  start_main_recon sens ksp;
  destruct (o_psf o) as [f|] eqn:Epsf; exec;
  try (lazymatch goal with
       | |- context [mbind] => destruct (o_im_truth o) eqn:Etruth; exec
       end);
  try (lazymatch goal with
       | |- context [mbind] =>
           destruct (o_usegpu o) eqn:Egpu; try destruct USE_CUDA eqn:Ecuda;
           exec
       end);
  try fold (estimated_pattern ksp sens) in *.

Lemma main_recon_events `{Lib : Library} o output ksp sens w e :
  e ∈ w_log (main_recon o output ksp sens w).2 ->
  e ∈ w_log w \/ event_ok o output ksp sens (w_files w) e.
Proof.
  run_main_recon o sens ksp.
  all: cbn [snd w_log c_exit c_abort]; rewrite ?img_dims_take; intros H.
  all: inv_log H ltac:(first [ by left | right; cbn [event_ok] ]).
  all: try done; try (by left); try (by right); auto.
  all: split; [by rewrite ?Egpu|]; split; [done|]; split; [congruence|];
       eexists; split; [unfold the_problem; rewrite ?Egpu; reflexivity|];
       rewrite ?Epsf; eauto.
Qed.

(** Every entry of the log of a run that loaded its arrays. *)
Lemma main_events `{Lib : Library} cl files o kn sn output ksp sens e :
  loads cl files o kn sn output ksp sens ->
  e ∈ w_log (main cl files).2 ->
  e = EvLoadCfl kn \/ e = EvLoadCfl sn \/
  (e = EvStderr "Dimensions of kspace and sensitivities do not match!" /\
   (main cl files).1 = Exited 1) \/
  (e = EvStderr "1 == ksp_dims[MAPS_DIM]" /\ (main cl files).1 = Aborted) \/
  (Forall (fun i => cfl_dims ksp !!! i = cfl_dims sens !!! i) (seq 0 4) /\
   cfl_dims ksp !!! MAPS_DIM = 1%Z /\
   event_ok o output ksp sens files e).
Proof.
  intros Hl He.
  destruct (main_cases _ _ _ _ _ _ _ _ Hl) as [(_ & E)|[(_ & _ & E)|(Hf & Hm & E)]];
    rewrite E in He |- *; cbn [snd fst w_log] in He |- *.
  - inv_log He ltac:(auto 6).
  - inv_log He ltac:(auto 6).
  - rewrite finish_snd in He. apply main_recon_events in He as [He|He].
    + cbn in He. inv_log He ltac:(auto).
    + auto 8.
Qed.

Lemma is_set_not_coil i :
  i < 32 -> MD_IS_SET (uint_not COIL_FLAG) i = negb (i =? COIL_DIM).
Proof. intros Hi. do 32 (destruct i as [|i]; [reflexivity|]). lia. Qed.


Lemma md_select_dims_lookup D flags (dims : list Z) i :
  length dims = D ->
  md_select_dims D flags dims !! i
  = (fun d => if MD_IS_SET flags i then d else 1%Z) <$> dims !! i.
Proof.
  intros Hlen. unfold md_select_dims.
  rewrite firstn_all2 by lia. apply list_lookup_imap.
Qed.

Lemma img_dims_of_eq `{Lib : Library} sens :
  length (cfl_dims sens) = DIMS ->
  img_dims_of sens = <[COIL_DIM := 1%Z]> (cfl_dims sens).
Proof.
  intros Hlen. pose proof DIMS_upper as Hu.
  apply list_eq. intros i. unfold img_dims_of.
  rewrite md_select_dims_lookup by done.
  destruct (decide (i < length (cfl_dims sens))) as [Hi|Hi].
  - rewrite is_set_not_coil by lia.
    destruct (decide (i = COIL_DIM)) as [->|Hne].
    + rewrite list_lookup_insert_eq by lia.
      destruct (cfl_dims sens !! COIL_DIM) eqn:E; [reflexivity|].
      apply lookup_ge_None in E. lia.
    + rewrite list_lookup_insert_ne by done.
      destruct (cfl_dims sens !! i) eqn:E; simpl; [|done].
      destruct (Nat.eqb_spec i COIL_DIM); [done|]. reflexivity.
  - rewrite !lookup_ge_None_2; [done| rewrite length_insert; lia | lia].
Qed.


Lemma is_set_fft_flags i : MD_IS_SET FFT_FLAGS i = bool_decide (i < 3).
Proof.
  do 3 (destruct i as [|i]; [reflexivity|]).
  rewrite bool_decide_eq_false_2 by lia.
  unfold MD_IS_SET. apply negb_false_iff, Z.eqb_eq.
  apply Z.bits_inj'. intros n Hn. rewrite Z.land_spec, Z.bits_0.
  unfold MD_BIT. rewrite Z.shiftl_spec by done.
  destruct (decide (n < 3)%Z).
  - rewrite (Z.testbit_neg_r 1) by lia. apply andb_false_r.
  - replace FFT_FLAGS with 7%Z by reflexivity.
    rewrite (Z.bits_above_log2 7 n); [done|lia|]. 
    change (Z.log2 7) with 2%Z. lia.
Qed.

(** ** The solver: iteration budget and truth image *)

Lemma admm_loop_truth `{Lib : Library} p t n : forall k s,
  (admm_loop p t k n s).1 = (admm_loop p None k n s).1.
Proof.
  induction n as [|n IH]; intros k s; cbn [admm_loop fst]; [done|]. apply IH.
Qed.

Lemma admm_solve_truth `{Lib : Library} p img t :
  (admm_solve p img t).1 = (admm_solve p img None).1.
Proof. unfold admm_solve. cbn [fst]. f_equal. apply admm_loop_truth. Qed.

Lemma admm_solve_no_iteration `{Lib : Library} p img t :
  (maxiter (iconf (rp_conf p)) <= 0)%Z ->
  admm_solve p img t = (img, []).
Proof.
  intros Hm. unfold admm_solve.
  replace (Z.to_nat _) with 0 by lia. reflexivity.
Qed.

Lemma config_error_not_zero `{Lib : Library} : config_error <> Exited 0.
Proof. intros E. pose proof config_error_nonzero as H. by rewrite E in H. Qed.

(** An ended run that is known to have exited with status 0. *)
Ltac exited_zero H :=
  first [ discriminate H
        | exfalso; injection H as H _; by apply config_error_not_zero in H
        | injection H as <- ].

(** A completed [main_recon]: the solver was called, and the output file
    holds what it returned. *)
Lemma main_recon_exit0 `{Lib : Library} o output ksp sens w w' :
  finish (main_recon o output ksp sens w) = (Exited 0, w') ->
  exists pattern t,
    EvRecon (o_usegpu o) (the_problem o ksp sens pattern)
      (md_clear c_zero DIMS (img_dims_of sens)) t ∈ w_log w' /\
    operators_match (the_problem o ksp sens pattern) = true /\
    w_files w'
    = <[output := Cfl (img_dims_of sens)
                    (admm_solve (the_problem o ksp sens pattern)
                       (md_clear c_zero DIMS (img_dims_of sens)) t).1]>
        (w_files w).
Proof.
  run_main_recon o sens ksp.
  all: cbn [finish c_exit c_abort c_end]; rewrite ?img_dims_take;
       intros Hfin; exited_zero Hfin; cbn [w_log w_files].
  all: eexists _, _; split;
    [ unfold the_problem; rewrite ?Egpu;
      repeat first [ apply list_elem_of_here | apply elem_of_app; right
                   | apply list_elem_of_further ]
    | split;
      [ unfold the_problem; rewrite ?Egpu; assumption
      | unfold the_problem; rewrite ?Egpu, !alter_insert_eq; reflexivity ] ].
Qed.

(** ** Counting the scale estimates *)

Lemma scale_estimates_app `{Lib : Library} (l1 l2 : list event) :
  scale_estimates (l1 ++ l2) = scale_estimates l1 + scale_estimates l2.
Proof.
  induction l1 as [|e l1 IH]; [done|]. destruct e; cbn; rewrite ?IH; done.
Qed.

Lemma scale_estimates_debug `{Lib : Library} (l : list event) :
  (forall e, e ∈ l -> exists i err, e = EvDebug (DbgError i err)) ->
  scale_estimates l = 0.
Proof.
  induction l as [|e l IH]; intros H; [done|].
  destruct (H e) as (i & err & ->); [left|]. cbn. apply IH.
  intros e' He'. apply H. by right.
Qed.

Lemma scale_estimates_recon `{Lib : Library} p img t :
  scale_estimates (admm_solve p img t).2 = 0.
Proof. apply scale_estimates_debug. intros e. apply admm_solve_events. Qed.

Lemma scale_estimates_when `{Lib : Library} (b : bool) m :
  scale_estimates (if b then [EvDebug m] else []) = 0.
Proof. by destruct b. Qed.

Lemma scale_estimates_when_free `{Lib : Library} (b : bool) op :
  scale_estimates (if b then [EvLinopFree op] else []) = 0.
Proof. by destruct b. Qed.

Lemma main_recon_scale `{Lib : Library} o output ksp sens w :
  (forall g p i t, EvRecon g p i t ∉ w_log w) ->
  let l' := w_log (main_recon o output ksp sens w).2 in
  scale_estimates l' <= S (scale_estimates (w_log w)) /\
  (forall g p i t, EvRecon g p i t ∈ l' ->
     scale_estimates l' = S (scale_estimates (w_log w))).
Proof.
  intros Hw. run_main_recon o sens ksp.
  all: cbn [snd w_log c_exit c_abort c_end]; cbv zeta.
  all: repeat (progress (cbn [scale_estimates Nat.add];
                 rewrite ?scale_estimates_app, ?scale_estimates_recon,
                   ?scale_estimates_when, ?scale_estimates_when_free)).
  all: split; [lia|]; intros g p i t H; try lia.
  all: inv_log H ltac:(try discriminate); by apply Hw in H.
Qed.

(** ** Runs that differ in the truth image *)


(** The same option, other than [-F], on two records that agree up to the
    truth image. *)
Lemma option_case_same `{Lib : Library} name c a o1 o2 w :
  c <> "F"%char -> same_but_truth o1 o2 ->
  match option_case name c a o2 w with
  | (Ok o2', w2) =>
      exists o1', option_case name c a o1 w = (Ok o1', w2) /\
                  same_but_truth o1' o2' /\ o_im_truth o1' = o_im_truth o1
  | (Halt h, w2) => option_case name c a o1 w = (Halt h, w2)
  end.
Proof.
  intros Hc (Hconf & Hgpu & Hpsf & Htv). unfold option_case.
  destruct (Ascii.eqb_spec c "F"); [done|].
  unfold with_conf. rewrite Hconf, Hgpu, Hpsf, Htv.
  repeat (case (Ascii.eqb c _);
          [run; first [ reflexivity
                      | eexists; split; [reflexivity|]; by repeat split ]|]).
  reflexivity.
Qed.

Lemma getopt_loop_same `{Lib : Library} name opts : forall o1 o2 w,
  Forall (fun ca => ca.1 <> "F"%char) opts -> same_but_truth o1 o2 ->
  match getopt_loop name opts o2 w with
  | (Ok o2', w2) =>
      exists o1', getopt_loop name opts o1 w = (Ok o1', w2) /\
                  same_but_truth o1' o2' /\ o_im_truth o1' = o_im_truth o1
  | (Halt h, w2) => getopt_loop name opts o1 w = (Halt h, w2)
  end.
Proof.
  induction opts as [|[c a] rest IH]; intros o1 o2 w Hall Hsame;
    cbn [getopt_loop].
  - run. eauto.
  - apply Forall_cons in Hall as [Hc Hall]. cbn in Hc.
    rewrite !bind_run.
    pose proof (option_case_same name c a o1 o2 w Hc Hsame) as H1.
    destruct (option_case name c a o2 w) as [[o2'|h] w2].
    + destruct H1 as (o1' & -> & Hs' & Ht).
      specialize (IH o1' o2' w2 Hall Hs').
      destruct (getopt_loop name rest o2' w2) as [[o2''|h] w3].
      * destruct IH as (o1'' & -> & ? & ?). eexists. split; [done|].
        split; [done|]. congruence.
      * done.
    + by rewrite H1.
Qed.

(** Inserting one [-F] option into an option list without any. *)
Lemma getopt_loop_insert_truth `{Lib : Library} name a pre : forall post o w,
  Forall (fun ca => ca.1 <> "F"%char) pre ->
  Forall (fun ca => ca.1 <> "F"%char) post ->
  match getopt_loop name (pre ++ ("F"%char, a) :: post) o w with
  | (Ok o2, w2) =>
      exists o1, getopt_loop name (pre ++ post) o w = (Ok o1, w2) /\
                 same_but_truth o1 o2 /\ o_im_truth o1 = o_im_truth o
  | (Halt (Exited code), w2) =>
      getopt_loop name (pre ++ post) o w = (Halt (Exited code), w2)
  | _ => True
  end.
Proof.
  induction pre as [|[c b] pre IH]; intros post o w Hpre Hpost.
  - cbn [app getopt_loop]. rewrite bind_run.
    unfold option_case at 1. cbn [Ascii.eqb Bool.eqb].
    destruct (decide _); run; [|done].
    set (o2 := Options _ _ _ _ _ _).
    assert (same_but_truth o o2) as Hs by done.
    pose proof (getopt_loop_same name post o o2 w Hpost Hs) as H.
    destruct (getopt_loop name post o2 w) as [[o2'|[]] w2]; done.
  - apply Forall_cons in Hpre as [Hc Hpre].
    cbn [app getopt_loop]. rewrite !bind_run.
    destruct (option_case name c b o w) as [[o'|h] w1] eqn:E.
    + specialize (IH post o' w1 Hpre Hpost).
      destruct (getopt_loop name (pre ++ _ :: post) o' w1) as [[o2|[]] w2];
        try done.
      destruct IH as (o1 & -> & Hs & Ht). eexists. split; [done|].
      split; [done|]. rewrite Ht.
      pose proof (option_case_same name c b o o w Hc) as H.
      rewrite E in H. destruct H as (o1' & [= <-] & _ & ?); [by repeat split|].
      done.
    + by destruct h.
Qed.

(** Two runs of [main_recon] whose options agree up to the truth image leave
    the same files when the one with the truth image completes. *)
Lemma main_recon_truth `{Lib : Library} o1 o2 output ksp sens w1 w2 w2' :
  same_but_truth o1 o2 -> o_im_truth o1 = false ->
  w_files w1 = w_files w2 ->
  finish (main_recon o2 output ksp sens w2) = (Exited 0, w2') ->
  exists w1',
    finish (main_recon o1 output ksp sens w1) = (Exited 0, w1') /\
    w_files w1' = w_files w2'.
Proof.
  intros (Hconf & Hgpu & Hpsf & Htv) Ht Hw.
  destruct o1 as [c1 g1 p1 f1 t1 v1], o2 as [c2 g2 p2 f2 t2 v2].
  cbn in Hconf, Hgpu, Hpsf, Htv, Ht. subst.
  destruct w1 as [fs l1], w2 as [fs2 l2]. cbn in Hw. subst fs2.
  unfold main_recon; cbv zeta; unfold debug_printf;
  fold (img_dims_of sens) (dims1_of sens);
  repeat step;
  unfold init_pattern, apply_scaling, call_recon, bpsense_recon_gpu,
    debug_printf, c_assert;
  fold (normalised ksp).
  cbn [o_psf o_im_truth o_usegpu o_conf o_use_tvnorm o_image_truth_fname].
  destruct p2 as [f|]; exec;
  destruct t2; exec;
  destruct g2; try destruct USE_CUDA; exec.
  all: cbn [finish c_exit c_abort c_end fst snd];
       repeat match goal with
       | |- context [(admm_solve ?p ?i (Some ?t)).1] =>
           rewrite (admm_solve_truth p i (Some t))
       end.
  all: intros Hfin; exited_zero Hfin.
  all: eexists; split; reflexivity.
Qed.

(** ** Pattern estimate and minimum block sizes *)




Lemma MIN_min a b : MIN a b = Z.min a b.
Proof. unfold MIN. destruct (Z.ltb_spec a b); lia. Qed.

Lemma make_minsize_length `{Lib : Library} img_dims :
  length (make_minsize img_dims) = DIMS.
Proof. unfold make_minsize. by rewrite !length_insert, length_replicate. Qed.

Lemma make_minsize_lookup `{Lib : Library} img_dims i :
  i < DIMS ->
  make_minsize img_dims !!! i
  = if decide (i < 3) then Z.min (img_dims !!! i) 16 else 1%Z.
Proof.
  intros Hi. pose proof DIMS_lower as Hl. unfold MAPS_DIM in Hl.
  unfold make_minsize. rewrite !MIN_min.
  apply list_lookup_total_correct.
  destruct i as [|[|[|i]]].
  - rewrite list_lookup_insert_ne, list_lookup_insert_ne by done.
    rewrite list_lookup_insert_eq by (rewrite length_replicate; lia). done.
  - rewrite list_lookup_insert_ne by done.
    rewrite list_lookup_insert_eq
      by (rewrite length_insert, length_replicate; lia). done.
  - rewrite list_lookup_insert_eq
      by (rewrite !length_insert, length_replicate; lia). done.
  - rewrite !list_lookup_insert_ne by done.
    rewrite decide_False by lia. by apply lookup_replicate_2.
Qed.











(** ** Calls of the solver in a log *)

Lemma calls_solver_true `{Lib : Library} (l : list event) :
  calls_solver l = true -> exists g p img t, EvRecon g p img t ∈ l.
Proof.
  intros (e & Hin & He)%existsb_exists. apply list_elem_of_In in Hin.
  destruct e; try discriminate. eauto.
Qed.

(** ** How a run goes, stage by stage *)

Lemma load_cfl_fail `{Lib : Library} name D w :
  (forall a, w_files w !! name = Some a -> length (cfl_dims a) <> D) ->
  load_cfl name D w
  = (Halt Aborted,
     World (w_files w) (EvStderr "cannot load array" :: w_log w)).
Proof.
  intros H. unfold load_cfl. destruct (w_files w !! name) as [a|]; [|done].
  by rewrite decide_False by by apply H.
Qed.

Lemma load_cfl_cases `{Lib : Library} name D w :
  (exists a, w_files w !! name = Some a /\ length (cfl_dims a) = D /\
     load_cfl name D w
     = (Ok a, World (w_files w) (EvLoadCfl name :: w_log w))) \/
  ((forall a, w_files w !! name = Some a -> length (cfl_dims a) <> D) /\
   load_cfl name D w
   = (Halt Aborted,
      World (w_files w) (EvStderr "cannot load array" :: w_log w))).
Proof.
  destruct (w_files w !! name) as [a|] eqn:E.
  - destruct (decide (length (cfl_dims a) = D)) as [Hl|Hl].
    + left. exists a. split; [done|]. split; [done|]. by apply load_cfl_ok.
    + right. split; [congruence|]. apply load_cfl_fail. congruence.
  - right. split; [done|]. apply load_cfl_fail. congruence.
Qed.

Lemma main_goes_on `{Lib : Library} cl files o kn sn output ksp sens :
  loads cl files o kn sn output ksp sens ->
  shapes_accepted ksp sens ->
  main cl files
  = finish (main_recon o output ksp sens
              (World files [EvLoadCfl sn; EvLoadCfl kn])).
Proof.
  intros Hl [Hagree Hmaps].
  destruct (main_cases _ _ _ _ _ _ _ _ Hl)
    as [(Hx & _)|[(_ & Hne & _)|(_ & _ & E)]]; [exfalso|done|done].
  apply Exists_exists in Hx as (i & Hi & Hne).
  apply elem_of_seq in Hi. apply Hne, Hagree. lia.
Qed.

Ltac mem :=
  repeat first [ apply list_elem_of_here | apply elem_of_app; right
               | apply list_elem_of_further ].

Ltac inv_mem H tac :=
  lazymatch type of H with
  | _ ∈ _ :: _ =>
      apply elem_of_cons in H as [H|H]; [tac | inv_mem H tac]
  | _ ∈ _ ++ _ =>
      apply elem_of_app in H as [H|H]; [inv_mem H tac | inv_mem H tac]
  | _ ∈ (if ?b then _ else _) => destruct b; inv_mem H tac
  | _ ∈ [] => apply elem_of_nil in H; destruct H
  | _ ∈ (admm_solve _ _ _).2 =>
      apply admm_solve_events in H as (? & ? & H); tac
  | _ => tac
  end.

Ltac nomem :=
  let H := fresh in
  intros; intros H; inv_mem H ltac:(try discriminate).

Ltac no_load :=
  let a := fresh in
  let Ha := fresh in
  let Hl := fresh in
  intros (a & Ha & Hl); congruence.

Ltac ok_load := intros; first [discriminate | simplify_eq; eauto].

Ltac fits_ok := first [ assumption | lia | intros; simplify_eq; assumption ].

(** The ways [main_recon] can go after the shape checks: the pattern file
    does not load; the pattern does not fit its buffer; the truth file does
    not load; the accelerator is asked for and not built in; the solver is
    called, and it either rejects its operators or returns, and then the run
    completes. *)
Lemma main_recon_stages `{Lib : Library} o output ksp sens files kn sn :
  let r := finish (main_recon o output ksp sens
                     (World files [EvLoadCfl sn; EvLoadCfl kn])) in
  let files1 :=
    <[output := Cfl (img_dims_of sens)
                  (md_clear c_zero DIMS (img_dims_of sens))]> files in
  let psf_ok := forall f, o_psf o = Some f -> can_load files f in
  let fits := pattern_fits o files ksp sens in
  let truth_ok :=
    o_im_truth o = true -> can_load files1 (o_image_truth_fname o) in
  EvNumInit (o_usegpu o) ∈ w_log r.2 /\
  (((exists f, o_psf o = Some f /\ ~ can_load files f) /\
    r.1 = Aborted /\ w_files r.2 = files /\
    EvStderr "cannot load array" ∈ w_log r.2 /\
    (forall n d, EvCreateCfl n d ∉ w_log r.2) /\
    (forall d, EvEstimateScaling d ∉ w_log r.2) /\
    (forall g p i t, EvRecon g p i t ∉ w_log r.2)) \/
   (psf_ok /\ ~ fits /\
    r.1 = Undefined /\ w_files r.2 = files /\
    (forall n d, EvCreateCfl n d ∉ w_log r.2) /\
    (forall d, EvEstimateScaling d ∉ w_log r.2) /\
    (forall g p i t, EvRecon g p i t ∉ w_log r.2)) \/
   (psf_ok /\ fits /\ o_im_truth o = true /\
    ~ can_load files1 (o_image_truth_fname o) /\
    r.1 = Aborted /\ w_files r.2 = files1 /\
    EvStderr "cannot load array" ∈ w_log r.2 /\
    EvCreateCfl output (img_dims_of sens) ∈ w_log r.2 /\
    (forall g p i t, EvRecon g p i t ∉ w_log r.2)) \/
   (psf_ok /\ fits /\ truth_ok /\ o_usegpu o = true /\ USE_CUDA = false /\
    r.1 = Aborted /\ w_files r.2 = files1 /\
    EvStderr "0" ∈ w_log r.2 /\
    EvCreateCfl output (img_dims_of sens) ∈ w_log r.2 /\
    (forall g p i t, EvRecon g p i t ∉ w_log r.2)) \/
   (psf_ok /\ fits /\ truth_ok /\ (o_usegpu o = true -> USE_CUDA = true) /\
    (exists p i t, EvRecon (o_usegpu o) p i t ∈ w_log r.2) /\
    forall g p i t,
      EvRecon g p i t ∈ w_log r.2 ->
      t = (if o_im_truth o
           then cfl_data <$> files1 !! o_image_truth_fname o else None) /\
      if operators_match p
      then r.1 = Exited 0 /\
           w_files r.2
           = <[output := Cfl (img_dims_of sens) (admm_solve p i t).1]> files
      else r.1 = config_error /\ w_files r.2 = files1 /\
           EvStderr "operator dimensions do not match" ∈ w_log r.2)).
Proof.
  cbv zeta. unfold can_load, pattern_fits.
  pattern (finish (main_recon o output ksp sens
                     (World files [EvLoadCfl sn; EvLoadCfl kn]))).
  match goal with |- ?P _ => set (Q := P) end.
  run_main_recon o sens ksp.
  all: try (lazymatch goal with
            | H : alter _ _ _ !! _ = _ |- _ => rename H into Htruth_file
            end).
  all: try (lazymatch goal with
            | H : operators_match _ = _ |- _ => rename H into Hop
            end).
  all: subst Q; cbv beta.
  all: cbn [finish fst snd w_log w_files c_exit c_abort c_end] in *.
  all: rewrite ?img_dims_take, ?alter_insert_eq, ?length_md_alloc in *;
       cbn [cfl_dims] in *.
  all: rewrite ?Epsf.
  all: (split; [mem|]).
  all: first
    [ solve [ left; split; [eexists; split; [reflexivity|no_load]|];
              split; [reflexivity|]; split; [reflexivity|]; split; [mem|];
              split; [nomem|]; split; nomem ]
    | solve [ right; left; split; [ok_load|];
              split; [first [ lia | intros Hfit; eauto ]|];
              split; [reflexivity|]; split; [reflexivity|];
              split; [nomem|]; split; nomem ]
    | solve [ right; right; left; split; [ok_load|]; split; [fits_ok|];
              split; [done|];
              split; [no_load|]; split; [reflexivity|];
              split; [reflexivity|]; split; [mem|]; split; [mem|nomem] ]
    | solve [ right; right; right; left; split; [ok_load|];
              split; [fits_ok|];
              split; [ok_load|]; split; [done|]; split; [done|];
              split; [reflexivity|]; split; [reflexivity|]; split; [mem|];
              split; [mem|nomem] ]
    | solve [ right; right; right; right; split; [ok_load|];
              split; [fits_ok|];
              split; [ok_load|]; split; [done|];
              split; [eexists _, _, _; mem|];
              let H := fresh in
              intros ? ? ? ? H;
              inv_mem H ltac:(try discriminate; simplify_eq);
              split; [by rewrite ?Htruth_file|];
              rewrite Hop; repeat split; first [reflexivity | mem] ] ].
Qed.

(** * The specification, property by property *)

(** C1. Configuration errors are fatal and are reported before any
    optimisation work: in every run whose k-space and sensitivity maps
    disagree on one of the first four axes, or whose k-space holds more than
    one map, the program prints a diagnostic and ends with a nonzero status;
    the numerical library is not initialised, the solver is not called, no
    output file is created, and the file store is left as it was. *)
Theorem configuration_errors_are_fatal `{Lib : Library}
    cl files o kn sn output ksp sens :
  loads cl files o kn sn output ksp sens ->
  (exists i, i < 4 /\ cfl_dims ksp !!! i <> cfl_dims sens !!! i) \/
  (1 < cfl_dims ksp !!! MAPS_DIM)%Z ->
  exits_nonzero (main cl files).1 /\
  (exists msg, EvStderr msg ∈ w_log (main cl files).2) /\
  (forall g, EvNumInit g ∉ w_log (main cl files).2) /\
  (forall g p img t, EvRecon g p img t ∉ w_log (main cl files).2) /\
  (forall n d, EvCreateCfl n d ∉ w_log (main cl files).2) /\
  w_files (main cl files).2 = files.
Proof.
  intros Hl Hbad.
  destruct (main_cases _ _ _ _ _ _ _ _ Hl)
    as [(_ & E)|[(_ & _ & E)|(Hf & Hm & _)]].
  1,2: rewrite E; cbn [fst snd w_log w_files exits_nonzero];
       split; [done|]; split; [eexists; left|];
       repeat split; intros; intros H; inv_log H ltac:(discriminate).
  exfalso. destruct Hbad as [(i & Hi & Hne)|Hgt]; [|lia].
  rewrite Forall_forall in Hf. apply Hne, Hf, elem_of_seq. lia.
Qed.

Section configuration_errors_example.
#[local] Existing Instance Example.scalars.
#[local] Existing Instance Example.library.

Lemma configuration_errors_are_fatal_witness :
  let r := main (Example.command [] "ksp_c" "sens_a") Example.files in
  exits_nonzero r.1 /\
  (exists msg, EvStderr msg ∈ w_log r.2) /\
  (forall g, EvNumInit g ∉ w_log r.2) /\
  (forall g p img t, EvRecon g p img t ∉ w_log r.2) /\
  (forall n d, EvCreateCfl n d ∉ w_log r.2) /\
  w_files r.2 = Example.files.
Proof.
  apply (configuration_errors_are_fatal
           (Example.command [] "ksp_c" "sens_a") Example.files
           (Example.parsed (Example.command [] "ksp_c" "sens_a"))
           "ksp_c" "sens_a" "out" Example.ksp_c Example.sens_a).
  - repeat split; vm_compute; reflexivity.
  - left. exists 3. split; [lia|]. vm_compute. discriminate.
Defined.

(** The same for a k-space that holds two maps: the assertion on the map
    axis aborts the run. *)
Example two_maps_in_kspace_abort :
  let r := main (Example.command [] "ksp_e" "sens_b") Example.files in
  r.1 = Aborted /\ cfl_dims <$> w_files r.2 !! "out" = None.
Proof. split; vm_compute; reflexivity. Qed.

End configuration_errors_example.

Section output_shape_example.
#[local] Existing Instance Example.scalars.
#[local] Existing Instance Example.library.

(** C2, as stated, fails: with sensitivity maps [sens_b] that hold two maps,
    the run completes and the output image keeps the map axis at size two; its
    shape is not the shape of the maps with coil and map axes both reduced to
    one. *)
Lemma output_shape_counterexample :
  let cl := Example.command [] "ksp_a" "sens_b" in
  let r := main cl Example.files in
  loads cl Example.files (Example.parsed cl) "ksp_a" "sens_b" "out"
    Example.ksp_a Example.sens_b /\
  r.1 = Exited 0 /\
  cfl_dims <$> w_files r.2 !! "out" = Some (Example.shape 2 2 1 1 2 1) /\
  Example.shape 2 2 1 1 2 1 !!! MAPS_DIM = 2%Z /\
  Example.shape 2 2 1 1 2 1
  <> <[MAPS_DIM := 1%Z]> (<[COIL_DIM := 1%Z]> (cfl_dims Example.sens_b)).
Proof.
  cbv zeta. split; [repeat split; vm_compute; reflexivity|].
  split; [vm_compute; reflexivity|].
  split; [vm_compute; reflexivity|].
  split; [reflexivity|]. vm_compute. discriminate.
Qed.

End output_shape_example.

(** C2, amended. For all inputs, the output image array has the shape of the
    sensitivity maps with the coil axis reduced to size one; every other
    axis, the map axis included, keeps its size. This is the shape [main]
    passes to [create_cfl], and the shape of the output file of every run
    that completes. *)
Theorem output_shape_is_coil_collapsed `{Lib : Library}
    cl files o kn sn output ksp sens :
  loads cl files o kn sn output ksp sens ->
  (forall n d, EvCreateCfl n d ∈ w_log (main cl files).2 ->
     n = output /\ d = <[COIL_DIM := 1%Z]> (cfl_dims sens)) /\
  ((main cl files).1 = Exited 0 ->
   exists data,
     w_files (main cl files).2 !! output
     = Some (Cfl (<[COIL_DIM := 1%Z]> (cfl_dims sens)) data)).
Proof.
  intros Hl. assert (length (cfl_dims sens) = DIMS) as Hlen by apply Hl.
  split.
  - intros n d H.
    apply (main_events _ _ _ _ _ _ _ _ _ Hl) in H
      as [H|[H|[(H & _)|[(H & _)|(_ & _ & H)]]]]; try discriminate.
    cbn in H. by rewrite img_dims_of_eq in H.
  - intros Hexit.
    destruct (main_cases _ _ _ _ _ _ _ _ Hl)
      as [(_ & E)|[(_ & _ & E)|(_ & _ & E)]];
      rewrite E in Hexit |- *; try discriminate.
    destruct (finish _) as [h w'] eqn:Ef. cbn in Hexit. subst h.
    apply main_recon_exit0 in Ef as (pattern & t & _ & Hop & Hfiles).
    cbn [snd]. rewrite Hfiles. cbn [w_files].
    rewrite lookup_insert_eq, img_dims_of_eq by done.
    eauto.
Qed.

Section output_shape_witness_example.
#[local] Existing Instance Example.scalars.
#[local] Existing Instance Example.library.

Lemma output_shape_is_coil_collapsed_witness :
  let cl := Example.command [] "ksp_a" "sens_b" in
  exists data,
    w_files (main cl Example.files).2 !! "out"
    = Some (Cfl (<[COIL_DIM := 1%Z]> (cfl_dims Example.sens_b)) data).
Proof.
  apply (output_shape_is_coil_collapsed
           (Example.command [] "ksp_a" "sens_b") Example.files
           (Example.parsed (Example.command [] "ksp_a" "sens_b"))
           "ksp_a" "sens_b" "out" Example.ksp_a Example.sens_b).
  - repeat split; vm_compute; reflexivity.
  - vm_compute. reflexivity.
Defined.

End output_shape_witness_example.

(** C3. One scalar scale is estimated from the k-space, never more than
    once per run; in a run that reaches the solver it is estimated exactly
    once, from the whole un-centred k-space, and the k-space the solver gets
    is that k-space with every sample multiplied by the reciprocal of the
    scale when the scale is nonzero, and that k-space unchanged when the scale
    is exactly zero. *)
Theorem scaling_is_guarded `{Lib : Library}
    cl files o kn sn output ksp sens :
  loads cl files o kn sn output ksp sens ->
  scale_estimates (w_log (main cl files).2) <= 1 /\
  (forall d, EvEstimateScaling d ∈ w_log (main cl files).2 ->
     d = cfl_dims ksp) /\
  forall g p img t,
    EvRecon g p img t ∈ w_log (main cl files).2 ->
    scale_estimates (w_log (main cl files).2) = 1 /\
    let k := fftmod DIMS (cfl_dims ksp) FFT_FLAGS (cfl_data ksp) in
    let s := estimate_scaling (cfl_dims ksp) k in
    rp_kspace p
    = if fl_is_zero s then k else (fun z => c_smul z (fl_recip s)) <$> k.
Proof.
  intros Hl.
  set (w0 := World files [EvLoadCfl sn; EvLoadCfl kn]).
  assert (forall g p img t, EvRecon g p img t ∉ w_log w0) as Hw0.
  { intros g p img t H. cbn in H. inv_log H ltac:(discriminate). }
  pose proof (main_recon_scale o output ksp sens w0 Hw0) as [Hle Heq].
  change (scale_estimates (w_log w0)) with 0 in Hle, Heq.
  split; [|split].
  - destruct (main_cases _ _ _ _ _ _ _ _ Hl)
      as [(_ & E)|[(_ & _ & E)|(_ & _ & E)]]; rewrite E.
    1,2: cbn; lia.
    by rewrite finish_snd.
  - intros d H.
    apply (main_events _ _ _ _ _ _ _ _ _ Hl) in H
      as [H|[H|[(H & _)|[(H & _)|(_ & _ & H)]]]]; try discriminate.
    exact H.
  - intros g p img t H. split.
    + destruct (main_cases _ _ _ _ _ _ _ _ Hl)
        as [(_ & E)|[(_ & _ & E)|(_ & _ & E)]]; rewrite E in H |- *.
      1,2: cbn in H; inv_log H ltac:(discriminate).
      rewrite finish_snd in H |- *. by eapply Heq.
    + apply (main_events _ _ _ _ _ _ _ _ _ Hl) in H
        as [H|[H|[(H & _)|[(H & _)|(_ & _ & H)]]]]; try discriminate.
      destruct H as (_ & _ & _ & pattern & -> & _).
      cbn [the_problem rp_kspace]. unfold normalised, md_zsmul.
      cbv zeta. by destruct (fl_is_zero _).
Qed.

Section scaling_example.
#[local] Existing Instance Example.scalars.
#[local] Existing Instance Example.library.

Lemma scaling_is_guarded_witness :
  let cl := Example.command [] "ksp_a" "sens_a" in
  exists g p img t,
    EvRecon g p img t ∈ w_log (main cl Example.files).2 /\
    scale_estimates (w_log (main cl Example.files).2) = 1 /\
    let k := fftmod DIMS (cfl_dims Example.ksp_a) FFT_FLAGS
               (cfl_data Example.ksp_a) in
    let s := estimate_scaling (cfl_dims Example.ksp_a) k in
    rp_kspace p
    = if fl_is_zero s then k else (fun z => c_smul z (fl_recip s)) <$> k.
Proof.
  cbv zeta.
  destruct (calls_solver_true
              (w_log (main (Example.command [] "ksp_a" "sens_a")
                        Example.files).2))
    as (g & p & img & t & H); [vm_compute; reflexivity|].
  exists g, p, img, t. split; [exact H|].
  apply (scaling_is_guarded
           (Example.command [] "ksp_a" "sens_a") Example.files
           (Example.parsed (Example.command [] "ksp_a" "sens_a"))
           "ksp_a" "sens_a" "out" Example.ksp_a Example.sens_a)
    with (g := g) (img := img) (t := t).
  - repeat split; vm_compute; reflexivity.
  - exact H.
Defined.

(** An all-zero k-space has scale zero: the solver gets it as loaded. *)
Example scaling_skipped_on_zero :
  let cl := Example.command [] "ksp_z" "sens_a" in
  estimate_scaling (cfl_dims Example.ksp_z) (cfl_data Example.ksp_z) = 0%Z /\
  (fun c => rp_kspace c.1.1.2)
    <$> head (recon_calls (w_log (main cl Example.files).2))
  = Some (cfl_data Example.ksp_z).
Proof. split; vm_compute; reflexivity. Qed.

End scaling_example.



Section pattern_example.
#[local] Existing Instance Example.scalars.
#[local] Existing Instance Example.library.


(** Maps with three entries on axis 5 and a k-space with one: the buffer has
    twelve elements; the estimate fills the first four, and the solver gets
    the other eight as the allocation left them. *)
Example pattern_buffer_larger_than_the_estimate :
  let cl := Example.command [] "ksp_a" "sens_d" in
  (fun c => rp_pattern c.1.1.2)
    <$> head (recon_calls (w_log (main cl Example.files).2))
  = Some [1; 0; 1; 1; 104; 105; 106; 107; 108; 109; 110; 111]%Z.
Proof. vm_compute. reflexivity. Qed.

(** A k-space with three entries on axis 5 and maps with one: the estimate
    has twelve elements and the buffer four. The estimator writes past the
    end of the buffer: the run is undefined from there on, and the solver is
    not reached in the model. *)
Example estimate_larger_than_the_buffer :
  let cl := Example.command [] "ksp_d" "sens_a" in
  (main cl Example.files).1 = Undefined /\
  calls_solver (w_log (main cl Example.files).2) = false.
Proof. split; vm_compute; reflexivity. Qed.

(** With a point-spread-function file, the pattern is the content of the
    file and the estimator is not called. *)
Example pattern_loaded :
  let cl := Example.command [("p"%char, "psf_a")] "ksp_a" "sens_a" in
  (fun c => rp_pattern c.1.1.2)
    <$> head (recon_calls (w_log (main cl Example.files).2))
  = Some (cfl_data Example.psf_a) /\
  existsb (fun e => match e with EvEstimatePattern _ _ => true | _ => false end)
    (w_log (main cl Example.files).2) = false.
Proof. split; vm_compute; reflexivity. Qed.

(** The estimate on the sample k-space: locations 0, 2 and 3 are sampled by
    one of the two coils, location 1 by none. *)
Example pattern_estimated :
  estimate_pattern DIMS (cfl_dims Example.ksp_a) COIL_DIM
    (cfl_data Example.ksp_a) = [1; 0; 1; 1]%Z.
Proof. reflexivity. Qed.

End pattern_example.

(** C5. The image estimate is the all-zero array when the solver is called;
    with an iteration budget of 0 the loop of the solver does no iteration,
    and the output image of a run that completes is the zero image. *)
Theorem zero_budget_gives_zero_image `{Lib : Library}
    cl files o kn sn output ksp sens :
  loads cl files o kn sn output ksp sens ->
  let zero :=
    replicate
      (Z.to_nat (md_calc_size DIMS (<[COIL_DIM := 1%Z]> (cfl_dims sens))))
      c_zero in
  (forall g p img t,
     EvRecon g p img t ∈ w_log (main cl files).2 -> img = zero) /\
  (maxiter (iconf (o_conf o)) = 0%Z ->
   (forall p t k s,
      admm_loop p t k (Z.to_nat (maxiter (iconf (o_conf o)))) s = (s, [])) /\
   ((main cl files).1 = Exited 0 ->
    w_files (main cl files).2 !! output
    = Some (Cfl (<[COIL_DIM := 1%Z]> (cfl_dims sens)) zero))).
Proof.
  intros Hl zero. assert (length (cfl_dims sens) = DIMS) as Hlen by apply Hl.
  assert (md_clear c_zero DIMS (img_dims_of sens) = zero) as Hz.
  { unfold md_clear, zero. by rewrite img_dims_of_eq. }
  split.
  - intros g p img t H.
    apply (main_events _ _ _ _ _ _ _ _ _ Hl) in H
      as [H|[H|[(H & _)|[(H & _)|(_ & _ & H)]]]]; try discriminate.
    destruct H as (_ & -> & _). exact Hz.
  - intros Hmax. split; [intros; by rewrite Hmax|]. intros Hexit.
    destruct (main_cases _ _ _ _ _ _ _ _ Hl)
      as [(_ & E)|[(_ & _ & E)|(_ & _ & E)]];
      rewrite E in Hexit |- *; try discriminate.
    destruct (finish _) as [h w'] eqn:Ef. cbn in Hexit. subst h.
    apply main_recon_exit0 in Ef as (pattern & t & _ & Hop & Hfiles).
    cbn [snd]. rewrite Hfiles. cbn [w_files].
    rewrite lookup_insert_eq, admm_solve_no_iteration.
    + cbn [fst]. by rewrite Hz, img_dims_of_eq.
    + unfold the_problem, create_l1. cbn [rp_conf].
      destruct (o_use_tvnorm o); cbn; lia.
Qed.

Section zero_budget_example.
#[local] Existing Instance Example.scalars.
#[local] Existing Instance Example.library.

Lemma zero_budget_gives_zero_image_witness :
  let cl := Example.command [("i"%char, "0")] "ksp_a" "sens_a" in
  (exists g p img t,
     EvRecon g p img t ∈ w_log (main cl Example.files).2 /\
     img = replicate 4 0%Z) /\
  (main cl Example.files).1 = Exited 0 /\
  w_files (main cl Example.files).2 !! "out"
  = Some (Cfl (<[COIL_DIM := 1%Z]> (cfl_dims Example.sens_a))
            (replicate 4 0%Z)).
Proof.
  cbv zeta.
  pose proof (zero_budget_gives_zero_image
                (Example.command [("i"%char, "0")] "ksp_a" "sens_a")
                Example.files
                (Example.parsed
                   (Example.command [("i"%char, "0")] "ksp_a" "sens_a"))
                "ksp_a" "sens_a" "out" Example.ksp_a Example.sens_a)
    as Hthm.
  destruct Hthm as [Hzero Hout]; [repeat split; vm_compute; reflexivity|].
  split; [|split; [vm_compute; reflexivity|]].
  - destruct (calls_solver_true
              (w_log (main (Example.command [("i"%char, "0")] "ksp_a" "sens_a")
                        Example.files).2))
    as (g & p & img & t & H); [vm_compute; reflexivity|].
    exists g, p, img, t. split; [exact H|]. exact (Hzero g p img t H).
  - apply Hout; [reflexivity | vm_compute; reflexivity].
Defined.

End zero_budget_example.

(** C6. The choice of the transform is one of two cases. With total
    variation, the analysis operator the solver gets is the gradient over the
    three spatial axes of the image, the proximal operator is the plain
    soft-threshold on the codomain of that operator, and the operator is
    recorded in the configuration. With wavelets, which is the choice when
    no option is given, the analysis operator is the identity on the image,
    and the wavelet transform sits in the proximal operator, which thresholds
    with random shifts; the wavelet operator is recorded in the
    configuration. *)
Theorem transform_dispatch `{Lib : Library}
    cl files o kn sn output ksp sens :
  loads cl files o kn sn output ksp sens ->
  o_use_tvnorm initial_options = false /\
  (forall i, MD_IS_SET FFT_FLAGS i = bool_decide (i < 3)) /\
  forall g p img t,
    EvRecon g p img t ∈ w_log (main cl files).2 ->
    let img_dims := <[COIL_DIM := 1%Z]> (cfl_dims sens) in
    if o_use_tvnorm o then
      rp_l1op p = tv_init DIMS img_dims FFT_FLAGS /\
      rp_l1prox p
      = prox_thresh_create (DIMS + 1) (linop_codomain_dims (rp_l1op p))
          (float_of_Z 1) 0 g /\
      l1op_obj (rp_conf p) = Some (rp_l1op p)
    else
      rp_l1op p = linop_identity_create DIMS img_dims /\
      exists minsize,
        rp_l1prox p
        = prox_wavethresh_create DIMS img_dims FFT_FLAGS minsize
            (float_of_Z 1) true g /\
        l1op_obj (rp_conf p)
        = Some (wavelet_create DIMS img_dims FFT_FLAGS minsize false g).
Proof.
  intros Hl. assert (length (cfl_dims sens) = DIMS) as Hlen by apply Hl.
  split; [reflexivity|]. split; [apply is_set_fft_flags|]. intros g p img t H.
  apply (main_events _ _ _ _ _ _ _ _ _ Hl) in H
    as [H|[H|[(H & _)|[(H & _)|(_ & _ & H)]]]]; try discriminate.
  destruct H as (-> & _ & _ & pattern & -> & _).
  cbv zeta. unfold the_problem, create_l1. rewrite img_dims_of_eq by done.
  destruct (o_use_tvnorm o); cbn; eauto.
Qed.

Section transform_example.
#[local] Existing Instance Example.scalars.
#[local] Existing Instance Example.library.

Lemma transform_dispatch_witness :
  let cl := Example.command [("t"%char, "")] "ksp_a" "sens_a" in
  exists g p img t,
    EvRecon g p img t ∈ w_log (main cl Example.files).2 /\
    rp_l1op p
    = tv_init DIMS (<[COIL_DIM := 1%Z]> (cfl_dims Example.sens_a)) FFT_FLAGS /\
    rp_l1prox p
    = prox_thresh_create (DIMS + 1) (linop_codomain_dims (rp_l1op p))
        (float_of_Z 1) 0 g /\
    l1op_obj (rp_conf p) = Some (rp_l1op p).
Proof.
  cbv zeta.
  destruct (calls_solver_true
              (w_log (main (Example.command [("t"%char, "")] "ksp_a" "sens_a")
                        Example.files).2))
    as (g & p & img & t & H); [vm_compute; reflexivity|].
  exists g, p, img, t. split; [exact H|].
  apply (transform_dispatch
           (Example.command [("t"%char, "")] "ksp_a" "sens_a") Example.files
           (Example.parsed (Example.command [("t"%char, "")] "ksp_a" "sens_a"))
           "ksp_a" "sens_a" "out" Example.ksp_a Example.sens_a)
    with (g := g) (img := img) (t := t).
  - repeat split; vm_compute; reflexivity.
  - exact H.
Defined.

End transform_example.


(** C7. With wavelets, the minimum block sizes handed to the wavelet
    operator and to its proximal operator are, on each of the three spatial
    axes, the smaller of the image size on that axis and 16, and 1 on every
    other axis. *)
Theorem minimum_block_sizes `{Lib : Library}
    cl files o kn sn output ksp sens :
  loads cl files o kn sn output ksp sens ->
  o_use_tvnorm o = false ->
  forall g p img t,
    EvRecon g p img t ∈ w_log (main cl files).2 ->
    let img_dims := <[COIL_DIM := 1%Z]> (cfl_dims sens) in
    exists minsize,
      rp_l1prox p
      = prox_wavethresh_create DIMS img_dims FFT_FLAGS minsize
          (float_of_Z 1) true g /\
      l1op_obj (rp_conf p)
      = Some (wavelet_create DIMS img_dims FFT_FLAGS minsize false g) /\
      length minsize = DIMS /\
      forall i, i < DIMS ->
        minsize !!! i
        = if decide (i < 3) then Z.min (img_dims !!! i) 16 else 1%Z.
Proof.
  intros Hl Htv g p img t H.
  assert (length (cfl_dims sens) = DIMS) as Hlen by apply Hl.
  apply (main_events _ _ _ _ _ _ _ _ _ Hl) in H
    as [H|[H|[(H & _)|[(H & _)|(_ & _ & H)]]]]; try discriminate.
  destruct H as (-> & _ & _ & pattern & -> & _).
  cbv zeta. unfold the_problem, create_l1. rewrite Htv, img_dims_of_eq by done.
  cbn. eexists. split; [done|]. split; [done|].
  split; [apply make_minsize_length|]. apply make_minsize_lookup.
Qed.

Section block_size_example.
#[local] Existing Instance Example.scalars.
#[local] Existing Instance Example.library.

Lemma minimum_block_sizes_witness :
  let cl := Example.command [] "ksp_a" "sens_a" in
  exists g p img t,
    EvRecon g p img t ∈ w_log (main cl Example.files).2 /\
    exists minsize,
      rp_l1prox p
      = prox_wavethresh_create DIMS
          (<[COIL_DIM := 1%Z]> (cfl_dims Example.sens_a)) FFT_FLAGS minsize
          (float_of_Z 1) true g /\
      minsize !!! 0 = 2%Z /\ minsize !!! 2 = 1%Z /\ minsize !!! 5 = 1%Z.
Proof.
  cbv zeta.
  destruct (calls_solver_true
              (w_log (main (Example.command [] "ksp_a" "sens_a")
                        Example.files).2))
    as (g & p & img & t & H); [vm_compute; reflexivity|].
  exists g, p, img, t. split; [exact H|].
  pose proof (minimum_block_sizes
                (Example.command [] "ksp_a" "sens_a") Example.files
                (Example.parsed (Example.command [] "ksp_a" "sens_a"))
                "ksp_a" "sens_a" "out" Example.ksp_a Example.sens_a)
    as Hthm.
  destruct (Hthm ltac:(repeat split; vm_compute; reflexivity) eq_refl
              g p img t H) as (minsize & Hprox & _ & _ & Hsize).
  exists minsize. split; [exact Hprox|].
  split; [|split].
  - apply (Hsize 0). vm_compute. lia.
  - apply (Hsize 2). vm_compute. lia.
  - apply (Hsize 5). vm_compute. lia.
Defined.

End block_size_example.


(** C8. The truth image does not interfere with the reconstruction: take a
    command line without a truth image and the same command line with one
    [-F] option added anywhere among its options; on the same files, if the
    run with the truth image completes, the run without it completes too and
    the two runs leave the same files, the output image among them. In the
    solver, the states of the iteration do not depend on the truth image. *)
Theorem truth_image_does_not_interfere `{Lib : Library}
    name pre post fname args files :
  Forall (fun ca => ca.1 <> "F"%char) pre ->
  Forall (fun ca => ca.1 <> "F"%char) post ->
  let without := Cmdline name (pre ++ post) args in
  let with_truth := Cmdline name (pre ++ ("F"%char, fname) :: post) args in
  (main with_truth files).1 = Exited 0 ->
  (main without files).1 = Exited 0 /\
  w_files (main without files).2 = w_files (main with_truth files).2 /\
  (forall p t k n s, (admm_loop p t k n s).1 = (admm_loop p None k n s).1).
Proof.
  intros Hpre Hpost without with_truth Hexit.
  split; [|split; [|intros; apply admm_loop_truth]]; revert Hexit.
  all: unfold main, main_prog, without, with_truth; cbn [argv0 cl_opts cl_args].
  all: rewrite !bind_run.
  all: pose proof (getopt_loop_insert_truth name fname pre post
                     initial_options (World files []) Hpre Hpost) as Hp.
  all: destruct (getopt_loop name (pre ++ _ :: post) _ _) as [[o2|h] w2] eqn:E2.
  all: try (destruct h; cbn [finish fst]; try discriminate;
            rewrite Hp; cbn [finish fst snd]; done).
  all: destruct Hp as (o1 & -> & Hsame & Ht); cbn [initial_options o_im_truth] in Ht.
  all: apply getopt_loop_ok in E2 as ->.
  all: destruct args as [|kn [|sn' [|output [|]]]];
       try (run; cbn [finish fst]; discriminate).
  all: rewrite !bind_run.
  all: destruct (load_and_check kn sn' (World files [])) as [[[ksp sens]|h] w1];
       try done.
  all: cbn [fst snd].
  all: destruct (finish (main_recon o2 output ksp sens w1)) as [h2 w2'] eqn:E2.
  all: cbn [fst snd]; intros ->.
  all: destruct (main_recon_truth o1 o2 output ksp sens w1 w1 w2' Hsame Ht
                   eq_refl E2) as (w1' & -> & Hf); done.
Qed.

Section truth_example.
#[local] Existing Instance Example.scalars.
#[local] Existing Instance Example.library.

Lemma truth_image_does_not_interfere_witness :
  let without := Cmdline "bpsense" [("i"%char, "2")]
                   ["ksp_a"; "sens_a"; "out"] in
  let with_truth := Cmdline "bpsense" [("i"%char, "2"); ("F"%char, "truth_a")]
                      ["ksp_a"; "sens_a"; "out"] in
  (main without Example.files).1 = Exited 0 /\
  w_files (main without Example.files).2
  = w_files (main with_truth Example.files).2 /\
  (forall p t k n s, (admm_loop p t k n s).1 = (admm_loop p None k n s).1).
Proof.
  apply (truth_image_does_not_interfere "bpsense" [("i"%char, "2")] []
           "truth_a" ["ksp_a"; "sens_a"; "out"] Example.files).
  - repeat constructor. vm_compute. discriminate.
  - constructor.
  - vm_compute. reflexivity.
Defined.

(** The two runs differ in their logs: the one with the truth image reports
    the comparison at each of its two iterations; the output image is the
    same. *)
Example truth_image_is_reported :
  let without := Cmdline "bpsense" [("i"%char, "2")]
                   ["ksp_a"; "sens_a"; "out"] in
  let with_truth := Cmdline "bpsense" [("i"%char, "2"); ("F"%char, "truth_a")]
                      ["ksp_a"; "sens_a"; "out"] in
  error_reports (w_log (main with_truth Example.files).2) = [1; 0] /\
  error_reports (w_log (main without Example.files).2) = [] /\
  cfl_data <$> w_files (main with_truth Example.files).2 !! "out"
  = Some [2; 2; 2; 2]%Z /\
  cfl_data <$> w_files (main without Example.files).2 !! "out"
  = Some [2; 2; 2; 2]%Z.
Proof. repeat split; vm_compute; reflexivity. Qed.

End truth_example.

(** C9. After option parsing, no field of the configuration other than the
    record of the sparsity operator in use is written: the configuration the
    solver gets carries the L2 weight, the tolerance, the ADMM penalty, the
    iteration budget and the real-value flag exactly as parsed, and differs
    from the parsed configuration in the field [l1op_obj] only. *)
Theorem configuration_is_framed `{Lib : Library}
    cl files o kn sn output ksp sens :
  loads cl files o kn sn output ksp sens ->
  forall g p img t,
    EvRecon g p img t ∈ w_log (main cl files).2 ->
    lambda (rp_conf p) = lambda (o_conf o) /\
    eps (rp_conf p) = eps (o_conf o) /\
    rho (iconf (rp_conf p)) = rho (iconf (o_conf o)) /\
    maxiter (iconf (rp_conf p)) = maxiter (iconf (o_conf o)) /\
    rvc (rp_conf p) = rvc (o_conf o) /\
    rp_conf p = set_l1op_obj (l1op_obj (rp_conf p)) (o_conf o).
Proof.
  intros Hl g p img t H.
  apply (main_events _ _ _ _ _ _ _ _ _ Hl) in H
    as [H|[H|[(H & _)|[(H & _)|(_ & _ & H)]]]]; try discriminate.
  destruct H as (_ & _ & _ & pattern & -> & _).
  unfold the_problem, create_l1. destruct (o_use_tvnorm o); cbn; done.
Qed.

Section configuration_example.
#[local] Existing Instance Example.scalars.
#[local] Existing Instance Example.library.

Lemma configuration_is_framed_witness :
  let cl := Example.command [("r"%char, "12"); ("c"%char, "")] "ksp_a" "sens_a" in
  exists g p img t,
    EvRecon g p img t ∈ w_log (main cl Example.files).2 /\
    lambda (rp_conf p) = 12%Z /\
    eps (rp_conf p) = (-1)%Z /\
    rho (iconf (rp_conf p)) = 10%Z /\
    maxiter (iconf (rp_conf p)) = 50%Z /\
    rvc (rp_conf p) = true /\
    rp_conf p
    = set_l1op_obj (l1op_obj (rp_conf p))
        (o_conf (Example.parsed
                   (Example.command [("r"%char, "12"); ("c"%char, "")]
                      "ksp_a" "sens_a"))).
Proof.
  cbv zeta.
  destruct (calls_solver_true
              (w_log (main (Example.command [("r"%char, "12"); ("c"%char, "")] "ksp_a" "sens_a")
                        Example.files).2))
    as (g & p & img & t & H); [vm_compute; reflexivity|].
  exists g, p, img, t. split; [exact H|].
  apply (configuration_is_framed
           (Example.command [("r"%char, "12"); ("c"%char, "")] "ksp_a" "sens_a") Example.files
           (Example.parsed (Example.command [("r"%char, "12"); ("c"%char, "")] "ksp_a" "sens_a"))
           "ksp_a" "sens_a" "out" Example.ksp_a Example.sens_a)
    with (g := g) (img := img) (t := t).
  - repeat split; vm_compute; reflexivity.
  - exact H.
Defined.

End configuration_example.


Section kspace_with_two_maps.
#[local] Existing Instance Example.scalars.
#[local] Existing Instance Example.library.


End kspace_with_two_maps.


Section higher_axes_example.
#[local] Existing Instance Example.scalars.
#[local] Existing Instance Example.library.


(** On the higher axes the two directions differ. Maps with three entries
    on axis 5 and a k-space with one: the checks of [main] pass and the
    solver is called. A k-space with three entries on axis 5 and maps with
    one: the checks of [main] pass as well, the estimate of twelve elements
    is written into a buffer of four, and the behaviour is undefined. *)
Example higher_axes_in_both_directions :
  let larger_maps :=
    main (Example.command [] "ksp_a" "sens_d") Example.files in
  let larger_kspace :=
    main (Example.command [] "ksp_d" "sens_a") Example.files in
  calls_solver (w_log larger_maps.2) = true /\
  larger_kspace.1 = Undefined /\
  calls_solver (w_log larger_kspace.2) = false /\
  length (estimate_pattern DIMS (cfl_dims Example.ksp_d) COIL_DIM
            (cfl_data Example.ksp_d)) = 12 /\
  Z.to_nat (md_calc_size DIMS (dims1_of Example.sens_a)) = 4.
Proof. repeat split; vm_compute; reflexivity. Qed.

End higher_axes_example.

(** * Further properties of the driver *)

(** ** The option loop *)

Ltac case_char c :=
  repeat match goal with
  | |- context [Ascii.eqb c ?k] =>
      destruct (Ascii.eqb_spec c k); [subst c|]
  | H : context [Ascii.eqb c ?k] |- _ =>
      destruct (Ascii.eqb_spec c k); [subst c|]
  end.

(** The loop over options that only set variables returns, leaves the world
    as it was, and sets each variable from the last occurrence of its
    option. *)
Lemma getopt_loop_fields `{Lib : Library} name opts : forall o0 w,
  forallb sets_variable opts = true ->
  exists o,
    getopt_loop name opts o0 w = (Ok o, w) /\
    lambda (o_conf o)
    = from_option atof (lambda (o_conf o0)) (last_arg "r" opts) /\
    eps (o_conf o) = from_option atof (eps (o_conf o0)) (last_arg "e" opts) /\
    maxiter (iconf (o_conf o))
    = from_option atoi (maxiter (iconf (o_conf o0))) (last_arg "i" opts) /\
    rho (iconf (o_conf o))
    = from_option atof (rho (iconf (o_conf o0))) (last_arg "u" opts) /\
    rvc (o_conf o) = given "c" opts || rvc (o_conf o0) /\
    o_usegpu o = given "g" opts || o_usegpu o0 /\
    o_psf o = from_option Some (o_psf o0) (last_arg "p" opts) /\
    o_use_tvnorm o = given "t" opts || o_use_tvnorm o0 /\
    o_im_truth o = given "F" opts || o_im_truth o0 /\
    o_image_truth_fname o
    = default (o_image_truth_fname o0) (last_arg "F" opts) /\
    l1op_obj (o_conf o) = l1op_obj (o_conf o0) /\
    bc_rest (o_conf o) = bc_rest (o_conf o0) /\
    ic_rest (iconf (o_conf o)) = ic_rest (iconf (o_conf o0)).
Proof.
  induction opts as [|[c a] rest IH]; intros o0 w Hall.
  - exists o0. cbn. repeat split; reflexivity.
  - cbn [forallb] in Hall. apply andb_true_iff in Hall as [Hc Hall].
    cbn [getopt_loop]. rewrite bind_run.
    unfold sets_variable in Hc. cbn [fst snd existsb] in Hc.
    unfold option_case.
    case_char c.
    all: try discriminate.
    all: try (apply bool_decide_eq_true in Hc; rewrite decide_True by done).
    all: run.
    all: match goal with
         | |- context [getopt_loop _ _ ?o1 _] =>
             destruct (IH o1 w Hall)
               as (o & -> & H1 & H2 & H3 & H4 & H5 & H6 & H7 & H8 & H9 & H10
                     & H11 & H12 & H13)
         end.
    all: exists o; split; [reflexivity|].
    all: rewrite H1, H2, H3, H4, H5, H6, H7, H8, H9, H10, H11, H12, H13.
    all: unfold given; cbn [last_arg existsb fst snd Ascii.eqb Bool.eqb].
    all: cbn -[last_arg existsb].
    all: fold (given "c" rest) (given "g" rest) (given "t" rest)
           (given "F" rest).
    all: destruct (last_arg "r" rest), (last_arg "e" rest),
           (last_arg "i" rest), (last_arg "u" rest), (last_arg "p" rest),
           (last_arg "F" rest).
    all: cbn.
    all: rewrite ?orb_true_r.
    all: repeat split; reflexivity.
Qed.

(** The first option that does not just set a variable ends the loop. *)
Lemma getopt_loop_stop `{Lib : Library} name pre c a post : forall o0 w,
  forallb sets_variable pre = true ->
  sets_variable (c, a) = false ->
  getopt_loop name (pre ++ (c, a) :: post) o0 w
  = if Ascii.eqb c "F" then (Halt Undefined, w)
    else if Ascii.eqb c "h"
    then (Halt (Exited 0),
          World (w_files w) (EvHelp :: EvUsage name false :: w_log w))
    else (Halt (Exited 1), World (w_files w) (EvUsage name true :: w_log w)).
Proof.
  induction pre as [|[c' a'] pre IH]; intros o0 w Hpre Hc.
  - cbn [app getopt_loop]. rewrite bind_run.
    unfold sets_variable in Hc. cbn [fst snd existsb] in Hc.
    unfold option_case. case_char c; try discriminate.
    + apply bool_decide_eq_false in Hc. by rewrite decide_False.
    + reflexivity.
    + reflexivity.
  - cbn [forallb] in Hpre. apply andb_true_iff in Hpre as [Hc' Hpre].
    cbn [app getopt_loop]. rewrite bind_run.
    destruct (getopt_loop_fields name [(c', a')] o0 w) as (o1 & E & _).
    { cbn [forallb]. by rewrite Hc'. }
    cbn [getopt_loop] in E. rewrite bind_run in E.
    destruct (option_case name c' a' o0 w) as [[o2|h] w2]; [|done].
    run. injection E as -> ->. by apply IH.
Qed.

Lemma forallb_first_false {A} (f : A -> bool) (l : list A) :
  forallb f l = false ->
  exists pre x post,
    l = pre ++ x :: post /\ forallb f pre = true /\ f x = false.
Proof.
  induction l as [|x l IH]; [done|]. cbn [forallb].
  destruct (f x) eqn:E.
  - intros (pre & y & post & -> & Hpre & Hy)%IH.
    exists (x :: pre), y, post. cbn [forallb]. by rewrite E.
  - intros _. by exists [], x, l.
Qed.

Lemma getopt_loop_parses `{Lib : Library} name opts o0 w o w' :
  getopt_loop name opts o0 w = (Ok o, w') ->
  forallb sets_variable opts = true.
Proof.
  intros E. destruct (forallb sets_variable opts) eqn:Hall; [done|].
  apply forallb_first_false in Hall as (pre & [c a] & post & -> & Hp & Hc).
  rewrite (getopt_loop_stop _ _ _ _ _ _ _ Hp Hc) in E.
  destruct (Ascii.eqb c "F"); [done|]. destruct (Ascii.eqb c "h"); done.
Qed.

(** X1. The option [-h] ends the run: when every option before it is one
    that only sets a variable, the program prints the usage line on the
    standard output, then the help text, and exits with status 0, whatever
    follows [-h] on the command line and whatever the remaining arguments
    are; no file is read or written. *)
Theorem help_ends_the_run `{Lib : Library} name pre a post args files :
  forallb sets_variable pre = true ->
  main (Cmdline name (pre ++ ("h"%char, a) :: post) args) files
  = (Exited 0, World files [EvHelp; EvUsage name false]).
Proof.
  intros Hpre. unfold main, main_prog. cbn [argv0 cl_opts cl_args].
  rewrite bind_run, (getopt_loop_stop _ _ _ _ _ _ _ Hpre) by reflexivity.
  reflexivity.
Qed.

Section help_example.
#[local] Existing Instance Example.scalars.
#[local] Existing Instance Example.library.

Lemma help_ends_the_run_witness :
  main (Cmdline "bpsense" [("c"%char, ""); ("h"%char, ""); ("x"%char, "")] [])
    Example.files
  = (Exited 0, World Example.files [EvHelp; EvUsage "bpsense" false]).
Proof.
  apply (help_ends_the_run "bpsense" [("c"%char, "")] "" [("x"%char, "")] []
           Example.files).
  reflexivity.
Defined.

End help_example.

(** X2. An option character without a [case] in the [switch] (what [getopt]
    returns for an unknown option or a missing argument) is a usage error:
    when every option before it only sets a variable, the program prints the
    usage line on the standard error and exits with status 1; no file is
    read or written, and what follows on the command line is not looked
    at. *)
Theorem unknown_option_is_a_usage_error `{Lib : Library}
    name pre c a post args files :
  forallb sets_variable pre = true ->
  has_case c = false ->
  main (Cmdline name (pre ++ (c, a) :: post) args) files
  = (Exited 1, World files [EvUsage name true]).
Proof.
  intros Hpre Hc. unfold main, main_prog. cbn [argv0 cl_opts cl_args].
  unfold has_case in Hc. cbn [existsb] in Hc.
  repeat (apply orb_false_iff in Hc as [? Hc]).
  rewrite bind_run, (getopt_loop_stop _ _ _ _ _ _ _ Hpre).
  - destruct (Ascii.eqb c "F"); [done|]. destruct (Ascii.eqb c "h"); done.
  - unfold sets_variable. cbn [fst snd existsb].
    repeat match goal with
           | H : Ascii.eqb _ _ = false |- _ => rewrite H; clear H
           end.
    reflexivity.
Qed.

Section unknown_option_example.
#[local] Existing Instance Example.scalars.
#[local] Existing Instance Example.library.

Lemma unknown_option_is_a_usage_error_witness :
  main (Cmdline "bpsense" [("t"%char, ""); ("?"%char, ""); ("h"%char, "")]
          ["ksp_a"; "sens_a"; "out"]) Example.files
  = (Exited 1, World Example.files [EvUsage "bpsense" true]).
Proof.
  apply (unknown_option_is_a_usage_error "bpsense" [("t"%char, "")] "?" ""
           [("h"%char, "")] ["ksp_a"; "sens_a"; "out"] Example.files).
  - reflexivity.
  - reflexivity.
Defined.

End unknown_option_example.

(** X3. A command line whose options all parse but which does not leave
    exactly three arguments is a usage error: the usage line goes to the
    standard error, the status is 1, and no file is read or written. *)
Theorem wrong_argument_count_is_a_usage_error `{Lib : Library} cl files :
  forallb sets_variable (cl_opts cl) = true ->
  length (cl_args cl) <> 3 ->
  main cl files = (Exited 1, World files [EvUsage (argv0 cl) true]).
Proof.
  intros Hall Hlen.
  destruct (getopt_loop_fields (argv0 cl) (cl_opts cl) initial_options
              (World files []) Hall) as (o & E & _).
  unfold main, main_prog. rewrite bind_run, E.
  destruct (cl_args cl) as [|kn [|sn [|output [|x args]]]]; try reflexivity.
  done.
Qed.

Section argument_count_example.
#[local] Existing Instance Example.scalars.
#[local] Existing Instance Example.library.

Lemma wrong_argument_count_is_a_usage_error_witness :
  main (Cmdline "bpsense" [("i"%char, "5")] ["ksp_a"; "sens_a"]) Example.files
  = (Exited 1, World Example.files [EvUsage "bpsense" true]).
Proof.
  apply (wrong_argument_count_is_a_usage_error
           (Cmdline "bpsense" [("i"%char, "5")] ["ksp_a"; "sens_a"])
           Example.files).
  - reflexivity.
  - simpl. lia.
Defined.

End argument_count_example.

(** X4. Options that only set variables are read without any output, in any
    number and order, and the last occurrence of an option wins: the L2
    weight, the tolerance, the iteration budget and the ADMM penalty are
    the conversions of the last argument given for [-r], [-e], [-i] and
    [-u], and otherwise the defaults of the two configuration structs, save
    the penalty, whose default is 10; the pattern file and the truth file
    are the last ones named; the flags [-c], [-g], [-t] are set when they
    occur and cannot be unset; the fields of the configuration that [main]
    does not name stay at their defaults. *)
Theorem options_are_read_last_one_wins `{Lib : Library} name opts w :
  forallb sets_variable opts = true ->
  exists o,
    getopt_loop name opts initial_options w = (Ok o, w) /\
    lambda (o_conf o)
    = from_option atof (lambda bpsense_defaults) (last_arg "r" opts) /\
    eps (o_conf o)
    = from_option atof (eps bpsense_defaults) (last_arg "e" opts) /\
    maxiter (iconf (o_conf o))
    = from_option atoi (maxiter iter_admm_defaults) (last_arg "i" opts) /\
    rho (iconf (o_conf o))
    = from_option atof (float_of_Z 10) (last_arg "u" opts) /\
    rvc (o_conf o) = given "c" opts || rvc bpsense_defaults /\
    o_usegpu o = given "g" opts /\
    o_psf o = last_arg "p" opts /\
    o_use_tvnorm o = given "t" opts /\
    o_im_truth o = given "F" opts /\
    (forall a, last_arg "F" opts = Some a -> o_image_truth_fname o = a) /\
    l1op_obj (o_conf o) = l1op_obj bpsense_defaults /\
    bc_rest (o_conf o) = bc_rest bpsense_defaults /\
    ic_rest (iconf (o_conf o)) = ic_rest iter_admm_defaults.
Proof.
  intros Hall.
  destruct (getopt_loop_fields name opts initial_options w Hall)
    as (o & E & H1 & H2 & H3 & H4 & H5 & H6 & H7 & H8 & H9 & H10 & H11
          & H12 & H13).
  exists o. split; [done|].
  rewrite H1, H2, H3, H4, H5, H6, H7, H8, H9, H10, H11, H12, H13.
  cbn [initial_options o_usegpu o_psf o_use_tvnorm o_im_truth].
  rewrite !orb_false_r.
  repeat split; try reflexivity.
  - by destruct (last_arg "p" opts).
  - by intros a ->.
Qed.

Section option_loop_example.
#[local] Existing Instance Example.scalars.
#[local] Existing Instance Example.library.

Lemma options_are_read_last_one_wins_witness :
  let opts := [("r"%char, "3"); ("c"%char, ""); ("p"%char, "psf_a");
               ("r"%char, "7"); ("p"%char, "psf_b")] in
  exists o,
    getopt_loop "bpsense" opts initial_options (World Example.files [])
    = (Ok o, World Example.files []) /\
    lambda (o_conf o) = 7%Z /\
    rho (iconf (o_conf o)) = 10%Z /\
    maxiter (iconf (o_conf o)) = 50%Z /\
    rvc (o_conf o) = true /\
    o_psf o = Some "psf_b" /\
    o_use_tvnorm o = false.
Proof.
  cbv zeta.
  destruct (options_are_read_last_one_wins "bpsense"
              [("r"%char, "3"); ("c"%char, ""); ("p"%char, "psf_a");
               ("r"%char, "7"); ("p"%char, "psf_b")]
              (World Example.files []))
    as (o & E & H1 & _ & H3 & H4 & H5 & _ & H7 & H8 & _);
    [reflexivity|].
  exists o. repeat split; assumption.
Defined.

End option_loop_example.

(** ** How a run ends *)

(** A run up to the shape checks: the option loop stops it, or the number
    of arguments is wrong, or one of the two arrays does not load, or both
    are loaded. *)
Lemma main_paths `{Lib : Library} cl files :
  (exists pre c a post,
     cl_opts cl = pre ++ (c, a) :: post /\
     forallb sets_variable pre = true /\ sets_variable (c, a) = false /\
     main cl files
     = if Ascii.eqb c "F" then (Undefined, World files [])
       else if Ascii.eqb c "h"
       then (Exited 0, World files [EvHelp; EvUsage (argv0 cl) false])
       else (Exited 1, World files [EvUsage (argv0 cl) true])) \/
  (forallb sets_variable (cl_opts cl) = true /\
   length (cl_args cl) <> 3 /\
   main cl files = (Exited 1, World files [EvUsage (argv0 cl) true])) \/
  (exists kn sn output,
     forallb sets_variable (cl_opts cl) = true /\
     cl_args cl = [kn; sn; output] /\
     ((forall a, files !! kn = Some a -> length (cfl_dims a) <> DIMS) /\
      main cl files
      = (Aborted, World files [EvStderr "cannot load array"]) \/
      (exists ksp, files !! kn = Some ksp /\ length (cfl_dims ksp) = DIMS) /\
      (forall a, files !! sn = Some a -> length (cfl_dims a) <> DIMS) /\
      main cl files
      = (Aborted, World files [EvStderr "cannot load array"; EvLoadCfl kn]) \/
      exists o ksp sens, loads cl files o kn sn output ksp sens)).
Proof.
  destruct (forallb sets_variable (cl_opts cl)) eqn:Hall.
  - right.
    destruct (getopt_loop_fields (argv0 cl) (cl_opts cl) initial_options
                (World files []) Hall) as (o & E & _).
    unfold main, main_prog. rewrite bind_run, E.
    destruct (cl_args cl) as [|kn [|sn [|output [|x args]]]] eqn:Ea.
    1-3,5: left; split; [done|]; split; [cbn; lia|]; reflexivity.
    right. exists kn, sn, output. split; [done|]. split; [done|].
    rewrite bind_run. unfold load_and_check. rewrite bind_run.
    destruct (load_cfl_cases kn DIMS (World files []))
      as [(ksp & Hk & Hkl & ->)|[Hk ->]]; cbn [w_files w_log] in *.
    + rewrite bind_run.
      destruct (load_cfl_cases sn DIMS (World files [EvLoadCfl kn]))
        as [(sens & Hs & Hsl & ->)|[Hs ->]]; cbn [w_files w_log] in *.
      * right. right. exists o, ksp, sens. unfold loads. by rewrite E, Ea.
      * right. left. split; [eauto|]. split; [done|]. reflexivity.
    + left. split; [done|]. reflexivity.
  - left.
    apply forallb_first_false in Hall as (pre & [c a] & post & E & Hp & Hc).
    exists pre, c, a, post. split; [done|]. split; [done|]. split; [done|].
    unfold main, main_prog. rewrite bind_run, E.
    rewrite (getopt_loop_stop _ _ _ _ _ _ _ Hp Hc).
    destruct (Ascii.eqb c "F"); [done|]. destruct (Ascii.eqb c "h"); done.
Qed.

(** How a run can end, and what it has printed by then. *)
Lemma main_outcomes `{Lib : Library} cl files :
  let r := main cl files in
  r.1 = Undefined \/
  (r.1 = Exited 0 /\
   (EvHelp ∈ w_log r.2 \/
    exists g p i t,
      EvRecon g p i t ∈ w_log r.2 /\ operators_match p = true)) \/
  (r.1 = Exited 1 /\
   (EvUsage (argv0 cl) true ∈ w_log r.2 \/
    EvStderr "Dimensions of kspace and sensitivities do not match!"
      ∈ w_log r.2)) \/
  (r.1 = Aborted /\ exists msg, EvStderr msg ∈ w_log r.2) \/
  (r.1 = config_error /\
   EvStderr "operator dimensions do not match" ∈ w_log r.2 /\
   exists g p i t,
     EvRecon g p i t ∈ w_log r.2 /\ operators_match p = false).
Proof.
  cbv zeta.
  destruct (main_paths cl files)
    as [(pre & c & a & post & E & Hp & Hc & ->)
       |[(_ & _ & ->)
        |(kn & sn & output & _ & Ea &
            [(_ & ->)|[(_ & _ & ->)|(o & ksp & sens & Hl)]])]].
  - destruct (Ascii.eqb c "F"); [by left|].
    right. destruct (Ascii.eqb c "h").
    + left. split; [done|]. left. cbn. mem.
    + right. left. split; [done|]. left. cbn. mem.
  - right. right. left. split; [done|]. left. cbn. mem.
  - right. right. right. left. split; [done|]. eexists. cbn. mem.
  - right. right. right. left. split; [done|]. eexists. cbn. mem.
  - destruct (main_cases _ _ _ _ _ _ _ _ Hl)
      as [(_ & ->)|[(_ & _ & ->)|(_ & _ & ->)]].
    + right. right. left. split; [done|]. right. cbn. mem.
    + right. right. right. left. split; [done|]. eexists. cbn. mem.
    + destruct (main_recon_stages o output ksp sens files kn sn)
        as (_ & [(_ & E & _ & Hm & _)|[(_ & _ & E & _)
                |[(_ & _ & _ & _ & E & _ & Hm & _)
                 |[(_ & _ & _ & _ & _ & E & _ & Hm & _)
                  |(_ & _ & _ & _ & (p & i & t & Hr) & Hall)]]]]).
      * right. right. right. left. eauto.
      * by left.
      * right. right. right. left. eauto.
      * right. right. right. left. eauto.
      * destruct (Hall _ _ _ _ Hr) as [_ H].
        destruct (operators_match p) eqn:Hop.
        -- right. left. split; [apply H|]. right. eauto 10.
        -- right. right. right. right. split; [apply H|].
           split; [apply H|]. eauto 10.
Qed.

(** X6. How a run ends, and what it has printed by then. An exit with
    status 0 happens only after the help text was printed, or after the
    solver was called and accepted its operators. When [main] itself ends
    the run with another status, the status is 1, and it comes with the
    usage line on the standard error or with the message that the shapes of
    k-space and sensitivity maps do not match. Any other exit is the
    configuration error of the solver, which was called and rejected its
    operators: its status is not 0 and its message is on the standard
    error. An abort comes with a message on the standard error. Nothing is
    said of a run whose behaviour is undefined. *)
Theorem exit_status_and_diagnostics `{Lib : Library} cl files :
  match (main cl files).1 with
  | Exited code =>
      code = 0%Z /\
      (EvHelp ∈ w_log (main cl files).2 \/
       exists g p img t,
         EvRecon g p img t ∈ w_log (main cl files).2 /\
         operators_match p = true) \/
      code = 1%Z /\
      (EvUsage (argv0 cl) true ∈ w_log (main cl files).2 \/
       EvStderr "Dimensions of kspace and sensitivities do not match!"
         ∈ w_log (main cl files).2) \/
      code <> 0%Z /\ config_error = Exited code /\
      EvStderr "operator dimensions do not match" ∈ w_log (main cl files).2 /\
      exists g p img t,
        EvRecon g p img t ∈ w_log (main cl files).2 /\
        operators_match p = false
  | Aborted => exists msg, EvStderr msg ∈ w_log (main cl files).2
  | Undefined => True
  end.
Proof.
  destruct (main_outcomes cl files)
    as [->|[[-> H]|[[-> H]|[[-> H]|(E & H & Hr)]]]]; auto.
  pose proof config_error_nonzero as Hnz. rewrite <- E in Hnz.
  destruct (main cl files).1 as [code| |]; [|by eexists|done].
  right. right. done.
Qed.

(** X7. The truth file name is copied, with its terminator, into a buffer of
    100 bytes, and its length is not checked. When the first option that
    does not just set a variable is [-F] with a name of 100 characters or
    more, the copy overflows the buffer and the behaviour of the run is
    undefined, whatever follows on the command line and whatever the files
    are. A name of 99 characters or fewer is stored as given, the comparison
    with the truth image is switched on, and the option loop goes on. *)
Theorem truth_name_overflows_its_buffer `{Lib : Library}
    cl files pre a post :
  cl_opts cl = pre ++ ("F"%char, a) :: post ->
  forallb sets_variable pre = true ->
  (100 <= String.length a -> (main cl files).1 = Undefined) /\
  (String.length a < 100 ->
   forall o w,
     option_case (argv0 cl) "F" a o w
     = (Ok (Options (o_conf o) (o_usegpu o) (o_psf o) a true
              (o_use_tvnorm o)), w)).
Proof.
  intros E Hp. split.
  - intros Ha. unfold main, main_prog. rewrite bind_run, E.
    rewrite (getopt_loop_stop _ _ _ _ _ _ _ Hp); [reflexivity|].
    unfold sets_variable. cbn [fst snd Ascii.eqb Bool.eqb].
    apply bool_decide_eq_false. lia.
  - intros Ha o w. unfold option_case. cbn [Ascii.eqb Bool.eqb].
    by rewrite decide_True.
Qed.

Section truth_name_example.
#[local] Existing Instance Example.scalars.
#[local] Existing Instance Example.library.

Lemma truth_name_overflows_its_buffer_witness :
  let name100 := String.concat "" (replicate 100 "a") in
  (main (Example.command [("F"%char, name100)] "ksp_a" "sens_a")
     Example.files).1 = Undefined.
Proof.
  cbv zeta.
  apply (truth_name_overflows_its_buffer
           (Example.command
              [("F"%char, String.concat "" (replicate 100 "a"))]
              "ksp_a" "sens_a")
           Example.files []
           (String.concat "" (replicate 100 "a")) []).
  - reflexivity.
  - reflexivity.
  - vm_compute. lia.
Defined.

(** At the boundary: a name of 100 characters overflows; with 99 characters
    the run goes on, and aborts because no such file is there. *)
Example truth_name_at_the_boundary :
  let name99 := String.concat "" (replicate 99 "a") in
  let name100 := String.concat "" (replicate 100 "a") in
  (main (Example.command [("F"%char, name100)] "ksp_a" "sens_a")
     Example.files).1 = Undefined /\
  (main (Example.command [("F"%char, name99)] "ksp_a" "sens_a")
     Example.files).1 = Aborted.
Proof. split; vm_compute; reflexivity. Qed.

End truth_name_example.

(** X8. Which shape check fires, for a run that loaded both arrays. The
    run ends at the loop over the axes 0 to 3, with the message that the
    shapes do not match and status 1, nothing else done, exactly when the
    two shapes differ on one of these axes, also when the map axis of the
    k-space is wrong as well. The assertion on the map axis of the k-space
    stops the run exactly when the shapes agree on the axes 0 to 3 and that
    axis does not have size one, be it larger or smaller. *)
Theorem shape_checks_decide `{Lib : Library}
    cl files o kn sn output ksp sens :
  loads cl files o kn sn output ksp sens ->
  (main cl files
   = (Exited 1,
      World files
        [EvStderr "Dimensions of kspace and sensitivities do not match!";
         EvLoadCfl sn; EvLoadCfl kn]) <->
   exists i, i < 4 /\ cfl_dims ksp !!! i <> cfl_dims sens !!! i) /\
  ((main cl files).1 = Aborted /\
   EvStderr "1 == ksp_dims[MAPS_DIM]" ∈ w_log (main cl files).2 <->
   (forall i, i < 4 -> cfl_dims ksp !!! i = cfl_dims sens !!! i) /\
   cfl_dims ksp !!! MAPS_DIM <> 1%Z).
Proof.
  intros Hl.
  destruct (main_cases _ _ _ _ _ _ _ _ Hl)
    as [(Hx & E)|[(Hf & Hne & E)|(Hf & Hm & E)]].
  - apply Exists_exists in Hx as (i & Hi & Hd). apply elem_of_seq in Hi.
    rewrite E. cbn [fst snd w_log]. split.
    + split; [|done]. intros _. exists i. split; [lia|done].
    + split; [intros [[=] _]|]. intros [Hagree _].
      destruct Hd. apply Hagree. lia.
  - assert (forall i, i < 4 -> cfl_dims ksp !!! i = cfl_dims sens !!! i)
      as Hagree.
    { intros i Hi. rewrite Forall_forall in Hf. apply Hf, elem_of_seq. lia. }
    rewrite E. cbn [fst snd w_log]. split.
    + split; [intros [=]|].
      intros (i & Hi & Hd). by destruct Hd; apply Hagree.
    + split; [done|]. intros _. split; [done|]. left.
  - assert (forall i, i < 4 -> cfl_dims ksp !!! i = cfl_dims sens !!! i)
      as Hagree.
    { intros i Hi. rewrite Forall_forall in Hf. apply Hf, elem_of_seq. lia. }
    split.
    + split; [|intros (i & Hi & Hd); by destruct Hd; apply Hagree].
      intros Hmain.
      destruct (main_recon_stages o output ksp sens files kn sn)
        as [Hinit _].
      cbv zeta in Hinit. rewrite <- E, Hmain in Hinit. cbn in Hinit.
      inv_mem Hinit ltac:(discriminate).
    + split; [|by intros [_ Hne]].
      intros [_ Hin]. rewrite E, finish_snd in Hin.
      apply main_recon_events in Hin as [Hin|[Hin|[Hin|Hin]]].
      * cbn in Hin. inv_mem Hin ltac:(discriminate).
      * discriminate.
      * discriminate.
      * discriminate.
Qed.

Section shape_check_example.
#[local] Existing Instance Example.scalars.
#[local] Existing Instance Example.library.

Lemma shape_checks_decide_witness :
  main (Example.command [] "ksp_c" "sens_a") Example.files
  = (Exited 1,
     World Example.files
       [EvStderr "Dimensions of kspace and sensitivities do not match!";
        EvLoadCfl "sens_a"; EvLoadCfl "ksp_c"]).
Proof.
  apply (shape_checks_decide
           (Example.command [] "ksp_c" "sens_a") Example.files
           (Example.parsed (Example.command [] "ksp_c" "sens_a"))
           "ksp_c" "sens_a" "out" Example.ksp_c Example.sens_a).
  - repeat split; vm_compute; reflexivity.
  - exists 3. split; [lia|]. vm_compute. discriminate.
Defined.

End shape_check_example.

(** ** Optional files and the accelerator *)

(** X9. A pattern file that cannot be loaded stops the run before any
    output: when the arrays pass the shape checks and the file named by
    [-p] is missing or has the wrong rank, the process aborts with a message
    after the numerical library was initialised; no output file is created,
    no scale is estimated, the solver is not called, and the file store is
    left as it was. *)
Theorem unreadable_pattern_file_stops_before_output `{Lib : Library}
    cl files o kn sn output ksp sens f :
  loads cl files o kn sn output ksp sens ->
  shapes_accepted ksp sens ->
  o_psf o = Some f ->
  ~ can_load files f ->
  (main cl files).1 = Aborted /\
  w_files (main cl files).2 = files /\
  EvNumInit (o_usegpu o) ∈ w_log (main cl files).2 /\
  EvStderr "cannot load array" ∈ w_log (main cl files).2 /\
  (forall n d, EvCreateCfl n d ∉ w_log (main cl files).2) /\
  (forall d, EvEstimateScaling d ∉ w_log (main cl files).2) /\
  (forall g p img t, EvRecon g p img t ∉ w_log (main cl files).2).
Proof.
  intros Hl Hs Hpsf Hno. rewrite (main_goes_on _ _ _ _ _ _ _ _ Hl Hs).
  destruct (main_recon_stages o output ksp sens files kn sn)
    as (Hinit & [(_ & H)|[(Hok & _)|[(Hok & _)|[(Hok & _)|(Hok & _)]]]]).
  2-5: destruct Hno; by apply Hok.
  destruct H as (? & ? & ? & ? & ? & ?). done.
Qed.

Section pattern_file_example.
#[local] Existing Instance Example.scalars.
#[local] Existing Instance Example.library.

Lemma unreadable_pattern_file_stops_before_output_witness :
  let cl := Example.command [("p"%char, "nofile")] "ksp_a" "sens_a" in
  (main cl Example.files).1 = Aborted /\
  w_files (main cl Example.files).2 = Example.files /\
  EvNumInit (o_usegpu (Example.parsed cl)) ∈ w_log (main cl Example.files).2 /\
  EvStderr "cannot load array" ∈ w_log (main cl Example.files).2 /\
  (forall n d, EvCreateCfl n d ∉ w_log (main cl Example.files).2) /\
  (forall d, EvEstimateScaling d ∉ w_log (main cl Example.files).2) /\
  (forall g p img t, EvRecon g p img t ∉ w_log (main cl Example.files).2).
Proof.
  apply (unreadable_pattern_file_stops_before_output
           (Example.command [("p"%char, "nofile")] "ksp_a" "sens_a")
           Example.files
           (Example.parsed
              (Example.command [("p"%char, "nofile")] "ksp_a" "sens_a"))
           "ksp_a" "sens_a" "out" Example.ksp_a Example.sens_a "nofile").
  - repeat split; vm_compute; reflexivity.
  - split; [intros i Hi; do 4 (destruct i as [|i]; [reflexivity|]); lia
           |reflexivity].
  - reflexivity.
  - intros (a & Ha & _).
    assert (cfl_dims <$> Example.files !! "nofile" = None) as E
      by (vm_compute; reflexivity).
    rewrite Ha in E. discriminate.
Defined.

End pattern_file_example.

(** X10. A truth file that cannot be loaded stops the run after the output
    was created: the truth image is loaded only after the output file has
    been created and cleared, so when the sampling pattern fits its buffer
    and the file named by [-F] (a name other than the output) is missing or
    has the wrong rank, the process aborts with a message, the solver is not
    called, and the output file is left behind, filled with zeros, in place
    of whatever had that name. *)
Theorem unreadable_truth_file_leaves_a_zero_output `{Lib : Library}
    cl files o kn sn output ksp sens :
  loads cl files o kn sn output ksp sens ->
  shapes_accepted ksp sens ->
  (forall f, o_psf o = Some f -> can_load files f) ->
  pattern_fits o files ksp sens ->
  o_im_truth o = true ->
  o_image_truth_fname o <> output ->
  ~ can_load files (o_image_truth_fname o) ->
  (main cl files).1 = Aborted /\
  w_files (main cl files).2
  = <[output := Cfl (img_dims_of sens)
                  (md_clear c_zero DIMS (img_dims_of sens))]> files /\
  EvCreateCfl output (img_dims_of sens) ∈ w_log (main cl files).2 /\
  EvStderr "cannot load array" ∈ w_log (main cl files).2 /\
  (forall g p img t, EvRecon g p img t ∉ w_log (main cl files).2).
Proof.
  intros Hl Hs Hpsf Hfit Ht Hne Hno.
  rewrite (main_goes_on _ _ _ _ _ _ _ _ Hl Hs).
  assert (forall fs : cfl,
            can_load (<[output := fs]> files) (o_image_truth_fname o) ->
            can_load files (o_image_truth_fname o)) as Hback.
  { intros fs (a & Ha & Hlen). rewrite lookup_insert_ne in Ha by done.
    by exists a. }
  destruct (main_recon_stages o output ksp sens files kn sn)
    as (_ & [((f & Hf & Hbad) & _)
            |[(_ & Hnf & _)
             |[(_ & _ & _ & H)|[(_ & _ & Hok & _)|(_ & _ & Hok & _)]]]]).
  - destruct Hbad. by apply Hpsf.
  - by destruct Hnf.
  - destruct H as (? & ? & ? & ? & ? & ?). done.
  - destruct Hno. eapply Hback, Hok, Ht.
  - destruct Hno. eapply Hback, Hok, Ht.
Qed.

Section truth_file_example.
#[local] Existing Instance Example.scalars.
#[local] Existing Instance Example.library.

Lemma unreadable_truth_file_leaves_a_zero_output_witness :
  let cl := Example.command [("F"%char, "nofile")] "ksp_a" "sens_a" in
  (main cl Example.files).1 = Aborted /\
  w_files (main cl Example.files).2
  = <["out" := Cfl (img_dims_of Example.sens_a)
                 (md_clear c_zero DIMS (img_dims_of Example.sens_a))]>
      Example.files /\
  EvCreateCfl "out" (img_dims_of Example.sens_a)
    ∈ w_log (main cl Example.files).2 /\
  EvStderr "cannot load array" ∈ w_log (main cl Example.files).2 /\
  (forall g p img t, EvRecon g p img t ∉ w_log (main cl Example.files).2).
Proof.
  apply (unreadable_truth_file_leaves_a_zero_output
           (Example.command [("F"%char, "nofile")] "ksp_a" "sens_a")
           Example.files
           (Example.parsed
              (Example.command [("F"%char, "nofile")] "ksp_a" "sens_a"))
           "ksp_a" "sens_a" "out" Example.ksp_a Example.sens_a).
  - repeat split; vm_compute; reflexivity.
  - split; [intros i Hi; do 4 (destruct i as [|i]; [reflexivity|]); lia
           |reflexivity].
  - intros f Hf. vm_compute in Hf. discriminate.
  - vm_compute. lia.
  - reflexivity.
  - intros H. vm_compute in H. discriminate.
  - intros (a & Ha & _). change (Example.files !! "nofile" = Some a) in Ha.
    assert (cfl_dims <$> Example.files !! "nofile" = None) as E
      by (vm_compute; reflexivity).
    rewrite Ha in E. discriminate.
Defined.

End truth_file_example.

(** X11. The accelerator without support for it: when [-g] is given to a
    program built without [USE_CUDA], the arrays and the optional files
    load and the sampling pattern fits its buffer, the accelerator
    initialisation of the numerical library is still called and the output
    file is still created and cleared; the process then aborts at
    [assert(0)] in place of the call of the solver, and the output file is
    left behind, filled with zeros. *)
Theorem accelerator_without_support_aborts `{Lib : Library}
    cl files o kn sn output ksp sens :
  loads cl files o kn sn output ksp sens ->
  shapes_accepted ksp sens ->
  (forall f, o_psf o = Some f -> can_load files f) ->
  pattern_fits o files ksp sens ->
  (o_im_truth o = true ->
   o_image_truth_fname o <> output /\
   can_load files (o_image_truth_fname o)) ->
  o_usegpu o = true ->
  USE_CUDA = false ->
  (main cl files).1 = Aborted /\
  EvNumInit true ∈ w_log (main cl files).2 /\
  EvStderr "0" ∈ w_log (main cl files).2 /\
  (forall g p img t, EvRecon g p img t ∉ w_log (main cl files).2) /\
  w_files (main cl files).2
  = <[output := Cfl (img_dims_of sens)
                  (md_clear c_zero DIMS (img_dims_of sens))]> files.
Proof.
  intros Hl Hs Hpsf Hfit Htruth Hgpu Hcuda.
  rewrite (main_goes_on _ _ _ _ _ _ _ _ Hl Hs).
  destruct (main_recon_stages o output ksp sens files kn sn)
    as (Hinit & [((f & Hf & Hbad) & _)
            |[(_ & Hnf & _)
             |[(_ & _ & Ht & Hbad & _)
              |[(_ & _ & _ & _ & _ & H)|(_ & _ & _ & Hok & _)]]]]).
  - destruct Hbad. by apply Hpsf.
  - by destruct Hnf.
  - destruct (Htruth Ht) as (Hne & a & Ha & Hlen).
    destruct Hbad. exists a. by rewrite lookup_insert_ne.
  - rewrite Hgpu in Hinit. destruct H as (? & ? & ? & ? & ?). done.
  - specialize (Hok Hgpu). congruence.
Qed.

Section accelerator_example.
#[local] Existing Instance Example.scalars.
#[local] Existing Instance Example.library.

Lemma accelerator_without_support_aborts_witness :
  let cl := Example.command [("g"%char, "")] "ksp_a" "sens_a" in
  (main cl Example.files).1 = Aborted /\
  EvNumInit true ∈ w_log (main cl Example.files).2 /\
  EvStderr "0" ∈ w_log (main cl Example.files).2 /\
  (forall g p img t, EvRecon g p img t ∉ w_log (main cl Example.files).2) /\
  w_files (main cl Example.files).2
  = <["out" := Cfl (img_dims_of Example.sens_a)
                 (md_clear c_zero DIMS (img_dims_of Example.sens_a))]>
      Example.files.
Proof.
  apply (accelerator_without_support_aborts
           (Example.command [("g"%char, "")] "ksp_a" "sens_a") Example.files
           (Example.parsed (Example.command [("g"%char, "")] "ksp_a" "sens_a"))
           "ksp_a" "sens_a" "out" Example.ksp_a Example.sens_a).
  - repeat split; vm_compute; reflexivity.
  - split; [intros i Hi; do 4 (destruct i as [|i]; [reflexivity|]); lia
           |reflexivity].
  - intros f Hf. vm_compute in Hf. discriminate.
  - vm_compute. lia.
  - intros Ht. vm_compute in Ht. discriminate.
  - reflexivity.
  - reflexivity.
Defined.

End accelerator_example.

(** ** The file store *)


Section file_store_example.
#[local] Existing Instance Example.scalars.
#[local] Existing Instance Example.library.


End file_store_example.

(** X13. The output of a completed run is what the solver returned: a run
    that loaded both arrays and exits with status 0 has called the solver,
    on the backend chosen by [-g]; the solver accepted its operators, and
    the final file store is the initial one with the output name bound to an
    array of the image shape that holds the image the solver computed from
    the arguments of that call. *)
Theorem output_is_what_the_solver_returned `{Lib : Library}
    cl files o kn sn output ksp sens :
  loads cl files o kn sn output ksp sens ->
  (main cl files).1 = Exited 0 ->
  (exists p img t, EvRecon (o_usegpu o) p img t ∈ w_log (main cl files).2) /\
  forall g p img t,
    EvRecon g p img t ∈ w_log (main cl files).2 ->
    operators_match p = true /\
    w_files (main cl files).2
    = <[output := Cfl (img_dims_of sens) (admm_solve p img t).1]> files.
Proof.
  intros Hl.
  destruct (main_cases _ _ _ _ _ _ _ _ Hl)
    as [(_ & ->)|[(_ & _ & ->)|(_ & _ & ->)]]; [done|done|].
  destruct (main_recon_stages o output ksp sens files kn sn)
    as (_ & [(_ & E & _)|[(_ & _ & E & _)|[(_ & _ & _ & _ & E & _)
            |[(_ & _ & _ & _ & _ & E & _)
             |(_ & _ & _ & _ & Hex & Hall)]]]]).
  1-4: by rewrite E.
  intros Hzero. split; [done|]. intros g p img t H.
  apply Hall in H as [_ H]. destruct (operators_match p).
  - split; [done|]. apply H.
  - destruct H as (E & _). rewrite E in Hzero.
    by apply config_error_not_zero in Hzero.
Qed.

Section solver_output_example.
#[local] Existing Instance Example.scalars.
#[local] Existing Instance Example.library.

Lemma output_is_what_the_solver_returned_witness :
  let cl := Example.command [] "ksp_a" "sens_a" in
  (exists p img t,
     EvRecon (o_usegpu (Example.parsed cl)) p img t
       ∈ w_log (main cl Example.files).2) /\
  forall g p img t,
    EvRecon g p img t ∈ w_log (main cl Example.files).2 ->
    operators_match p = true /\
    w_files (main cl Example.files).2
    = <["out" := Cfl (img_dims_of Example.sens_a) (admm_solve p img t).1]>
        Example.files.
Proof.
  apply (output_is_what_the_solver_returned
           (Example.command [] "ksp_a" "sens_a") Example.files
           (Example.parsed (Example.command [] "ksp_a" "sens_a"))
           "ksp_a" "sens_a" "out" Example.ksp_a Example.sens_a).
  - repeat split; vm_compute; reflexivity.
  - vm_compute. reflexivity.
Defined.

End solver_output_example.

(** ** What the solver is given *)

Lemma create_l1_conf `{Lib : Library} tv g d m c :
  (create_l1 tv g d m c).2
  = set_l1op_obj (l1op_obj (create_l1 tv g d m c).2) c.
Proof. destruct tv, c; reflexivity. Qed.

(** X14. The arrays and shapes the solver is given: the backend is the one
    chosen by [-g]; the shapes of the maps and of the k-space are those of
    the two files; the shape of the pattern is derived from the maps (coil
    and map axes reduced to one), also when the pattern came from a file;
    the sensitivity maps are un-centred by [fftmod] over the three spatial
    axes and not scaled; without [-F] there is no truth image; with [-F] the
    truth image is the content of the named file as loaded, with no check
    of its shape, and when the name is the output name it is the zero image
    that was just created. *)
Theorem solver_inputs `{Lib : Library} cl files o kn sn output ksp sens :
  loads cl files o kn sn output ksp sens ->
  forall g p img t,
    EvRecon g p img t ∈ w_log (main cl files).2 ->
    g = o_usegpu o /\
    rp_dims p = cfl_dims sens /\
    rp_ksp_dims p = cfl_dims ksp /\
    rp_dims1 p
    = md_select_dims DIMS (uint_not (Z.lor COIL_FLAG MAPS_FLAG))
        (cfl_dims sens) /\
    rp_maps p = fftmod DIMS (cfl_dims sens) FFT_FLAGS (cfl_data sens) /\
    (o_im_truth o = false -> t = None) /\
    (o_im_truth o = true -> o_image_truth_fname o <> output ->
     exists a, files !! o_image_truth_fname o = Some a /\
               t = Some (cfl_data a)) /\
    (o_im_truth o = true -> o_image_truth_fname o = output -> t = Some img).
Proof.
  intros Hl g p img t H.
  destruct (main_events _ _ _ _ _ _ _ _ _ Hl H)
    as [?|[?|[[? _]|[[? _]|(Hf & Hm & Hg & Himg & Hnone & pat & -> & _)]]]];
    try discriminate.
  assert (shapes_accepted ksp sens) as Hs.
  { split; [|done]. intros i Hi. rewrite Forall_forall in Hf. apply Hf.
    apply elem_of_seq. lia. }
  rewrite (main_goes_on _ _ _ _ _ _ _ _ Hl Hs) in H.
  destruct (main_recon_stages o output ksp sens files kn sn)
    as (_ & [(_ & _ & _ & _ & _ & _ & Hr)|[(_ & _ & _ & _ & _ & _ & Hr)
            |[(_ & _ & _ & _ & _ & _ & _ & _ & Hr)
             |[(_ & _ & _ & _ & _ & _ & _ & _ & _ & Hr)
              |(_ & _ & Hok & _ & _ & Hall)]]]]);
    try (by apply Hr in H).
  destruct (Hall _ _ _ _ H) as [Ht _].
  repeat split; try done.
  - intros Htruth Hne. destruct (Hok Htruth) as (a & Ha & _).
    rewrite Htruth, Ha in Ht. rewrite lookup_insert_ne in Ha by done.
    by exists a.
  - intros Htruth He. rewrite Htruth, He, lookup_insert_eq in Ht.
    by rewrite Ht, Himg.
Qed.

Section solver_inputs_example.
#[local] Existing Instance Example.scalars.
#[local] Existing Instance Example.library.

Lemma solver_inputs_witness :
  let cl := Example.command [("F"%char, "truth_a")] "ksp_a" "sens_b" in
  exists g p img t,
    EvRecon g p img t ∈ w_log (main cl Example.files).2 /\
    g = false /\
    rp_dims p = cfl_dims Example.sens_b /\
    rp_ksp_dims p = cfl_dims Example.ksp_a /\
    rp_maps p = cfl_data Example.sens_b /\
    t = Some [5; 5; 5; 5]%Z.
Proof.
  cbv zeta.
  set (cl := Example.command [("F"%char, "truth_a")] "ksp_a" "sens_b").
  destruct (calls_solver_true (w_log (main cl Example.files).2))
    as (g & p & img & t & H); [vm_compute; reflexivity|].
  exists g, p, img, t. split; [exact H|].
  destruct (solver_inputs cl Example.files (Example.parsed cl)
              "ksp_a" "sens_b" "out" Example.ksp_a Example.sens_b
              ltac:(repeat split; vm_compute; reflexivity) g p img t H)
    as (H1 & H2 & H3 & _ & H5 & _ & H7 & _).
  repeat split; try assumption.
  destruct H7 as (a & Ha & ->);
    [reflexivity|intros E; vm_compute in E; discriminate|].
  change (Example.files !! "truth_a" = Some a) in Ha.
  assert (fmap (M := option) cfl_data (Example.files !! "truth_a")
          = Some [5; 5; 5; 5]%Z) as E
    by (vm_compute; reflexivity).
  rewrite Ha in E. injection E as E. by rewrite E.
Defined.

End solver_inputs_example.

(** X5. The numbers the solver runs with come from the command line: in
    every call of the solver the L2 weight, the tolerance, the ADMM penalty
    and the iteration budget are the conversions of the last [-r], [-e],
    [-u] and [-i] arguments; where an option is absent the value is the
    default of [bpsense_defaults] (weight, tolerance) or of
    [iter_admm_defaults] (budget), and 10 for the penalty, whatever the
    defaults say; the real-value constraint is on when [-c] occurs or the
    default has it on; the other fields of both structs are the defaults;
    and the backend is the accelerator exactly when [-g] occurs. *)
Theorem solver_configuration_from_the_command_line `{Lib : Library}
    cl files o kn sn output ksp sens :
  loads cl files o kn sn output ksp sens ->
  forall g p img t,
    EvRecon g p img t ∈ w_log (main cl files).2 ->
    let opts := cl_opts cl in
    lambda (rp_conf p)
    = from_option atof (lambda bpsense_defaults) (last_arg "r" opts) /\
    eps (rp_conf p)
    = from_option atof (eps bpsense_defaults) (last_arg "e" opts) /\
    rho (iconf (rp_conf p))
    = from_option atof (float_of_Z 10) (last_arg "u" opts) /\
    maxiter (iconf (rp_conf p))
    = from_option atoi (maxiter iter_admm_defaults) (last_arg "i" opts) /\
    rvc (rp_conf p) = given "c" opts || rvc bpsense_defaults /\
    ic_rest (iconf (rp_conf p)) = ic_rest iter_admm_defaults /\
    bc_rest (rp_conf p) = bc_rest bpsense_defaults /\
    g = given "g" opts.
Proof.
  intros Hl g p img t H opts.
  destruct (main_events _ _ _ _ _ _ _ _ _ Hl H)
    as [?|[?|[[? _]|[[? _]|(_ & _ & Hg & _ & _ & pat & -> & _)]]]];
    try discriminate.
  destruct Hl as (Hp & _).
  destruct (getopt_loop _ _ _ _) as [[o'|h] w'] eqn:E; [|done].
  cbn in Hp. injection Hp as ->.
  pose proof (getopt_loop_parses _ _ _ _ _ _ E) as Hall.
  destruct (getopt_loop_fields (argv0 cl) (cl_opts cl) initial_options
              (World files []) Hall)
    as (o1 & E1 & H1 & H2 & H3 & H4 & H5 & H6 & _ & _ & _ & _ & _
          & H12 & H13).
  rewrite E in E1. injection E1 as <-.
  unfold the_problem. cbn [rp_conf]. rewrite create_l1_conf.
  cbn [set_l1op_obj lambda eps iconf rvc bc_rest].
  rewrite H1, H2, H3, H4, H5, H12, H13, Hg, H6.
  cbn [initial_options o_usegpu]. by rewrite orb_false_r.
Qed.

Section solver_configuration_example.
#[local] Existing Instance Example.scalars.
#[local] Existing Instance Example.library.

Lemma solver_configuration_from_the_command_line_witness :
  let cl := Example.command [("u"%char, "3"); ("i"%char, "4"); ("u"%char, "5")]
              "ksp_a" "sens_a" in
  exists g p img t,
    EvRecon g p img t ∈ w_log (main cl Example.files).2 /\
    lambda (rp_conf p) = 0%Z /\
    eps (rp_conf p) = (-1)%Z /\
    rho (iconf (rp_conf p)) = 5%Z /\
    maxiter (iconf (rp_conf p)) = 4%Z /\
    rvc (rp_conf p) = false /\
    g = false.
Proof.
  cbv zeta.
  set (cl := Example.command
               [("u"%char, "3"); ("i"%char, "4"); ("u"%char, "5")]
               "ksp_a" "sens_a").
  destruct (calls_solver_true (w_log (main cl Example.files).2))
    as (g & p & img & t & H); [vm_compute; reflexivity|].
  exists g, p, img, t. split; [exact H|].
  destruct (solver_configuration_from_the_command_line
              cl Example.files (Example.parsed cl)
              "ksp_a" "sens_a" "out" Example.ksp_a Example.sens_a
              ltac:(repeat split; vm_compute; reflexivity) g p img t H)
    as (H1 & H2 & H3 & H4 & H5 & _ & _ & H8).
  repeat split; assumption.
Defined.

End solver_configuration_example.

(** ** The log of a run *)

Lemma log_here {A} (l : list A) : l = [] ++ l.
Proof. reflexivity. Qed.

Lemma log_cons {A} (x : A) l rest h :
  l = rest ++ h -> x :: l = (x :: rest) ++ h.
Proof. by intros ->. Qed.

Lemma log_app {A} (a l rest h : list A) :
  l = rest ++ h -> a ++ l = (a ++ rest) ++ h.
Proof. intros ->. by rewrite app_assoc. Qed.

Ltac split_log :=
  repeat first [ apply log_here | apply log_cons | apply log_app ].

Lemma Forall_when {A} (P : A -> Prop) (b : bool) x :
  P x -> Forall P (if b then [x] else []).
Proof. destruct b; by repeat constructor. Qed.

Lemma admm_solve_announces `{Lib : Library} p img t :
  Forall (fun e => announces e = false) (admm_solve p img t).2.
Proof.
  apply Forall_forall. intros e He.
  by apply admm_solve_events in He as (k & err & ->).
Qed.

Ltac all_log :=
  repeat first
    [ apply Forall_nil_2
    | apply Forall_cons_2; [reflexivity|]
    | apply Forall_app_2;
        [first [ apply admm_solve_announces
               | apply Forall_when; reflexivity ]|] ].

(** The log of [main_recon] starts, in time, with the initialisation of the
    numerical library and the announcements; nothing of the kind is written
    later. *)
Lemma main_recon_log_head `{Lib : Library} o output ksp sens w :
  exists rest,
    w_log (finish (main_recon o output ksp sens w)).2
    = rest ++
      (if o_im_truth o then [EvDebug DbgCompareToTruth] else []) ++
      [EvDebug (if o_use_tvnorm o then DbgTotalVariation else DbgWavelets)] ++
      (if fl_is_pos (lambda (o_conf o))
       then [EvDebug (DbgL2 (lambda (o_conf o)))] else []) ++
      (if (1 <? cfl_dims sens !!! MAPS_DIM)%Z
       then [EvDebug (DbgMaps (cfl_dims sens !!! 4))] else []) ++
      [EvNumInit (o_usegpu o)] ++ w_log w /\
    Forall (fun e => announces e = false) rest.
Proof.
  pattern (finish (main_recon o output ksp sens w)).
  match goal with |- ?P _ => set (Q := P) end.
  run_main_recon o sens ksp.
  all: subst Q; cbv beta.
  all: cbn [finish fst snd w_log w_files c_exit c_abort c_end].
  all: rewrite ?Etruth, ?Egpu.
  all: eexists; split; [split_log|].
  all: all_log.
Qed.

(** The log of a completed [main_recon] ends, in time, with the call of the
    solver, its reports, and the releases. *)
Lemma main_recon_log_tail `{Lib : Library} o output ksp sens w :
  (finish (main_recon o output ksp sens w)).1 = Exited 0 ->
  exists pattern t before,
    let p := the_problem o ksp sens pattern in
    let img := md_clear c_zero DIMS (img_dims_of sens) in
    w_log (finish (main_recon o output ksp sens w)).2
    = [EvDebug DbgTotalTime; EvUnmapCfl (img_dims_of sens) BufImage;
       EvUnmapCfl (cfl_dims ksp) BufKspace;
       EvUnmapCfl (cfl_dims sens) BufSens] ++
      (if negb (o_use_tvnorm o)
       then [EvLinopFree (l1op_obj (rp_conf p))] else []) ++
      [EvLinopFree (Some (rp_l1op p)); EvOperatorPFree (rp_l1prox p);
       match o_psf o with
       | Some f =>
           EvUnmapCfl (from_option cfl_dims [] (w_files w !! f)) BufPattern
       | None => EvMdFree BufPattern
       end] ++
      (admm_solve p img t).2 ++
      EvRecon (o_usegpu o) p img t :: before ++ w_log w /\
    Forall (fun e => releases e = false) before.
Proof.
  pattern (finish (main_recon o output ksp sens w)).
  match goal with |- ?P _ => set (Q := P) end.
  run_main_recon o sens ksp.
  all: subst Q; cbv beta zeta.
  all: cbn [finish fst snd w_log w_files c_exit c_abort c_end].
  all: intros Hzero;
       first [ discriminate Hzero
             | exfalso; by apply config_error_not_zero in Hzero
             | clear Hzero ].
  all: unfold the_problem; cbn [rp_conf rp_l1op rp_l1prox].
  all: rewrite ?Egpu, ?Epsf.
  all: repeat match goal with
              | H : _ !! _ = Some _ |- _ => try rewrite H; clear H
              end.
  all: cbn [from_option default app].
  all: eexists _, _, _; split;
         [do 4 f_equal; apply (f_equal (app _)); do 3 f_equal;
          apply (f_equal (app _)); f_equal; split_log|].
  all: all_log.
Qed.

Lemma elem_of_announced `{Lib : Library} e (rest head : list event) :
  Forall (fun e => announces e = false) rest ->
  announces e = true ->
  e ∈ rest ++ head <-> e ∈ head.
Proof.
  intros Hrest He. rewrite elem_of_app. split; [|by right].
  intros [H|H]; [|done]. rewrite Forall_forall in Hrest.
  apply Hrest in H. congruence.
Qed.

(** X15. What a run announces once its arrays have passed the shape checks,
    whether or not it completes: the numerical library is initialised for
    the backend chosen by [-g] and for no other; the number of maps is
    printed exactly when the sensitivity maps hold more than one map, and it
    is that number; the L2 weight is printed exactly when it is positive;
    exactly one of the two transform messages is printed, total variation
    with [-t] and wavelets without; and the comparison with the truth image
    is announced exactly when [-F] was given. *)
Theorem announcements_follow_the_configuration `{Lib : Library}
    cl files o kn sn output ksp sens :
  loads cl files o kn sn output ksp sens ->
  shapes_accepted ksp sens ->
  (forall g, EvNumInit g ∈ w_log (main cl files).2 <-> g = o_usegpu o) /\
  (forall n, EvDebug (DbgMaps n) ∈ w_log (main cl files).2 <->
     (1 < cfl_dims sens !!! MAPS_DIM)%Z /\ n = cfl_dims sens !!! MAPS_DIM) /\
  (forall l, EvDebug (DbgL2 l) ∈ w_log (main cl files).2 <->
     fl_is_pos (lambda (o_conf o)) = true /\ l = lambda (o_conf o)) /\
  (EvDebug DbgTotalVariation ∈ w_log (main cl files).2 <->
     o_use_tvnorm o = true) /\
  (EvDebug DbgWavelets ∈ w_log (main cl files).2 <->
     o_use_tvnorm o = false) /\
  (EvDebug DbgCompareToTruth ∈ w_log (main cl files).2 <->
     o_im_truth o = true).
Proof.
  intros Hl Hs. rewrite (main_goes_on _ _ _ _ _ _ _ _ Hl Hs).
  destruct (main_recon_log_head o output ksp sens
              (World files [EvLoadCfl sn; EvLoadCfl kn]))
    as (rest & -> & Hrest).
  cbn [w_log].
  change (cfl_dims sens !!! 4) with (cfl_dims sens !!! MAPS_DIM).
  destruct (Z.ltb_spec 1 (cfl_dims sens !!! MAPS_DIM)) as [Hm|Hm];
    destruct (o_im_truth o), (o_use_tvnorm o),
      (fl_is_pos (lambda (o_conf o))).
  all: repeat match goal with |- _ /\ _ => split end; intros;
       rewrite elem_of_announced by done.
  all: cbn [app]; rewrite ?elem_of_cons, ?elem_of_nil.
  all: split;
    [ intros H; repeat (destruct H as [H|H]); try done; try discriminate;
      repeat split; first [lia | congruence]
    | intros H; try discriminate;
      try (lazymatch type of H with _ /\ _ => destruct H as [? ->] end);
      try lia; subst; auto 12 ].
Qed.

Section announcements_example.
#[local] Existing Instance Example.scalars.
#[local] Existing Instance Example.library.

Lemma announcements_follow_the_configuration_witness :
  let cl := Example.command [("t"%char, ""); ("r"%char, "2")]
              "ksp_a" "sens_b" in
  let log := w_log (main cl Example.files).2 in
  EvNumInit false ∈ log /\
  EvDebug (DbgMaps 2) ∈ log /\
  EvDebug (DbgL2 2%Z) ∈ log /\
  EvDebug DbgTotalVariation ∈ log /\
  (EvDebug DbgWavelets ∉ log) /\
  (EvDebug DbgCompareToTruth ∉ log).
Proof.
  cbv zeta.
  set (cl := Example.command [("t"%char, ""); ("r"%char, "2")]
               "ksp_a" "sens_b").
  destruct (announcements_follow_the_configuration
              cl Example.files (Example.parsed cl)
              "ksp_a" "sens_b" "out" Example.ksp_a Example.sens_b)
    as (H1 & H2 & H3 & H4 & H5 & H6).
  - repeat split; vm_compute; reflexivity.
  - split; [intros i Hi; do 4 (destruct i as [|i]; [reflexivity|]); lia
           |reflexivity].
  - split; [by apply H1|].
    split; [apply H2; split; [reflexivity|reflexivity]|].
    split; [apply H3; split; reflexivity|]. split; [by apply H4|].
    split; [intros H; apply H5 in H; discriminate
           |intros H; apply H6 in H; discriminate].
Defined.

End announcements_example.

(** X16. Releases come after the solver, once each: the log of a completed
    run ends, in time, with the one call of the solver, the reports of the
    solver, and then the releases, each with the resource it releases, in
    this order: the pattern, by [unmap_cfl] with the shape of the pattern
    file when it was loaded and by [md_free] when it was estimated; the
    proximal operator; the analysis operator; the wavelet operator recorded
    in the configuration, only when wavelets are in use (with total
    variation that field is the analysis operator, which is freed once); the
    maps, the k-space and the image, each with its own shape; the truth
    image is not released. No resource is released twice. Before the call
    of the solver nothing is released and the solver is not called. *)
Theorem resources_are_released_after_the_solver `{Lib : Library}
    cl files o kn sn output ksp sens :
  loads cl files o kn sn output ksp sens ->
  (main cl files).1 = Exited 0 ->
  exists pattern t before,
    let p := the_problem o ksp sens pattern in
    let img := md_clear c_zero DIMS (img_dims_of sens) in
    let released :=
      [EvUnmapCfl (img_dims_of sens) BufImage;
       EvUnmapCfl (cfl_dims ksp) BufKspace;
       EvUnmapCfl (cfl_dims sens) BufSens] ++
      (if negb (o_use_tvnorm o)
       then [EvLinopFree (l1op_obj (rp_conf p))] else []) ++
      [EvLinopFree (Some (rp_l1op p)); EvOperatorPFree (rp_l1prox p);
       match o_psf o with
       | Some f =>
           EvUnmapCfl (from_option cfl_dims [] (files !! f)) BufPattern
       | None => EvMdFree BufPattern
       end] in
    w_log (main cl files).2
    = EvDebug DbgTotalTime :: released ++
      (admm_solve p img t).2 ++
      EvRecon (o_usegpu o) p img t :: before /\
    Forall (fun e => releases e = false) before /\
    NoDup released /\
    (o_use_tvnorm o = true -> l1op_obj (rp_conf p) = Some (rp_l1op p)).
Proof.
  intros Hl.
  destruct (main_cases _ _ _ _ _ _ _ _ Hl)
    as [(_ & ->)|[(_ & _ & ->)|(_ & _ & ->)]]; [done|done|].
  intros (pattern & t & before & Hlog & Hb)%main_recon_log_tail.
  cbv zeta in Hlog. cbn [w_files w_log] in Hlog.
  exists pattern, t, (before ++ [EvLoadCfl sn; EvLoadCfl kn]).
  cbv zeta. split; [|split; [|split]].
  - rewrite Hlog. cbn [app]. by rewrite <- !app_assoc.
  - apply Forall_app_2; [done|]. by repeat constructor.
  - unfold the_problem, create_l1. cbn [rp_conf rp_l1op rp_l1prox].
    destruct (o_use_tvnorm o), (o_psf o);
      cbn [negb app fst snd l1op_obj set_l1op_obj];
      repeat (apply NoDup_cons_2;
                [let H := fresh in
                 intros H; inv_mem H ltac:(discriminate)|]);
      apply NoDup_nil_2.
  - intros Htv. unfold the_problem, create_l1. rewrite Htv.
    cbn [rp_conf rp_l1op fst snd]. by destruct (o_conf o).
Qed.

Section releases_example.
#[local] Existing Instance Example.scalars.
#[local] Existing Instance Example.library.

Lemma resources_are_released_after_the_solver_witness :
  let cl := Example.command [("p"%char, "psf_a")] "ksp_a" "sens_a" in
  let o := Example.parsed cl in
  exists pattern t before,
    let p := the_problem o Example.ksp_a Example.sens_a pattern in
    let img := md_clear c_zero DIMS (img_dims_of Example.sens_a) in
    let released :=
      [EvUnmapCfl (img_dims_of Example.sens_a) BufImage;
       EvUnmapCfl (cfl_dims Example.ksp_a) BufKspace;
       EvUnmapCfl (cfl_dims Example.sens_a) BufSens] ++
      (if negb (o_use_tvnorm o)
       then [EvLinopFree (l1op_obj (rp_conf p))] else []) ++
      [EvLinopFree (Some (rp_l1op p)); EvOperatorPFree (rp_l1prox p);
       match o_psf o with
       | Some f =>
           EvUnmapCfl (from_option cfl_dims [] (Example.files !! f))
             BufPattern
       | None => EvMdFree BufPattern
       end] in
    w_log (main cl Example.files).2
    = EvDebug DbgTotalTime :: released ++
      (admm_solve p img t).2 ++
      EvRecon (o_usegpu o) p img t :: before /\
    Forall (fun e => releases e = false) before /\
    NoDup released /\
    (o_use_tvnorm o = true -> l1op_obj (rp_conf p) = Some (rp_l1op p)).
Proof.
  apply (resources_are_released_after_the_solver
           (Example.command [("p"%char, "psf_a")] "ksp_a" "sens_a")
           Example.files
           (Example.parsed
              (Example.command [("p"%char, "psf_a")] "ksp_a" "sens_a"))
           "ksp_a" "sens_a" "out" Example.ksp_a Example.sens_a).
  - repeat split; vm_compute; reflexivity.
  - vm_compute. reflexivity.
Defined.

(** The arrays that run unmaps, as logged, most recent first: the image,
    the k-space, the maps, and the pattern file with its own shape, which is
    the first to be unmapped. *)
Example releases_of_a_run_with_a_pattern_file :
  let cl := Example.command [("p"%char, "psf_a")] "ksp_a" "sens_a" in
  omap (fun e => match e with
                 | EvUnmapCfl d b => Some (d, b)
                 | _ => None
                 end) (w_log (main cl Example.files).2)
  = [(Example.shape 2 2 1 1 1 1, BufImage);
     (Example.shape 2 2 1 2 1 1, BufKspace);
     (Example.shape 2 2 1 2 1 1, BufSens);
     (Example.shape 2 2 1 1 1 1, BufPattern)].
Proof. vm_compute. reflexivity. Qed.

End releases_example.
